(** * Vision Helpdesk ticket watcher: change detection and alert dispatch

    A shallow embedding of [skills/vision-helpdesk/scripts/vision-watcher.py]
    and the properties of its detection, triage, routing and persistence
    code.

    Conventions of the embedding.
    - Python [str] values are [string]s; [lower()] and [strip()] are the
      ASCII ones, which is what Python computes on ASCII text.
    - A ticket is the dict the ticketing API returns.  Its text fields are
      strings when present ([None] stands for a missing key); the
      identifier and the revision marker are JSON scalars ([pyval]).
    - The watcher state is the dict [{"seen_tickets": ..., "last_check": ...}];
      [seen_tickets] is a [gmap] from the stringified identifier to the
      per-ticket record.
    - Everything outside the process (wall clock, the [pass] store, HTTP,
      the [claude] CLI, chat endpoints) is an oracle of a [World], indexed
      by the number of external interactions made so far, so that two calls
      with equal arguments may still differ in outcome.  The clock counts
      whole seconds.
    - The file system is a set of directories and a map from paths to
      contents; a state file holds a state document or text that is not
      JSON. *)

From Stdlib Require Import ZArith DecimalString Ascii String List Bool Lia.
From stdpp Require Import base option gmap strings list.

Local Open Scope string_scope.

(* ===================================================================== *)
(** ** Python string primitives *)
(* ===================================================================== *)

Module Py.

(** [c.lower()] on one ASCII character. *)
Definition lower_ascii (c : ascii) : ascii :=
  let n := nat_of_ascii c in
  if (65 <=? n)%nat && (n <=? 90)%nat then ascii_of_nat (n + 32) else c.

(** [s.lower()] *)
Fixpoint lower (s : string) : string :=
  match s with
  | EmptyString => EmptyString
  | String c s' => String (lower_ascii c) (lower s')
  end.

(** [s.startswith(p)] *)
Fixpoint startswith (p s : string) : bool :=
  match p, s with
  | EmptyString, _ => true
  | String _ _, EmptyString => false
  | String a p', String b s' => if Ascii.eqb a b then startswith p' s' else false
  end.

(** [sub in s] *)
Fixpoint contains (sub s : string) : bool :=
  match s with
  | EmptyString => startswith sub EmptyString
  | String _ s' => startswith sub s || contains sub s'
  end.

(** [s[:n]] *)
Fixpoint take (n : nat) (s : string) : string :=
  match n, s with
  | O, _ => EmptyString
  | S _, EmptyString => EmptyString
  | S n', String c s' => String c (take n' s')
  end.

(** [any(sig in s for sig in sigs)] *)
Definition any_in (sigs : list string) (s : string) : bool :=
  existsb (fun sig => contains sig s) sigs.

(** Truthiness of a string: [bool(s)]. *)
Definition truthy (s : string) : bool :=
  match s with EmptyString => false | String _ _ => true end.

(** Truthiness of an optional string ([None] is falsy). *)
Definition truthy_opt (o : option string) : bool :=
  match o with Some s => truthy s | None => false end.

(** [a or b] on optional strings: the first truthy operand, else the last. *)
Definition or_else (a b : option string) : option string :=
  if truthy_opt a then a else b.

(** Characters removed by [str.strip()] with no argument (ASCII). *)
Definition is_space (c : ascii) : bool :=
  let n := nat_of_ascii c in
  ((9 <=? n)%nat && (n <=? 13)%nat) || ((28 <=? n)%nat && (n <=? 32)%nat).

Fixpoint lstrip_by (p : ascii -> bool) (s : string) : string :=
  match s with
  | EmptyString => EmptyString
  | String c s' => if p c then lstrip_by p s' else s
  end.

(** Remove trailing characters satisfying [p]. *)
Fixpoint rstrip_by (p : ascii -> bool) (s : string) : string :=
  match s with
  | EmptyString => EmptyString
  | String c s' =>
      match rstrip_by p s' with
      | EmptyString => if p c then EmptyString else String c EmptyString
      | r => String c r
      end
  end.

Definition strip_by (p : ascii -> bool) (s : string) : string :=
  rstrip_by p (lstrip_by p s).

(** [s.strip()] *)
Definition strip (s : string) : string := strip_by is_space s.

(** [s.strip(q)] where [q] is the double-quote character. *)
Definition strip_quote (s : string) : string :=
  strip_by (fun c => Ascii.eqb c (ascii_of_nat 34)) s.

(** [s.split(sep)] for a one-character separator: always at least one piece. *)
Fixpoint split_on (sep : ascii) (s : string) : list string :=
  match s with
  | EmptyString => [EmptyString]
  | String c s' =>
      if Ascii.eqb c sep then EmptyString :: split_on sep s'
      else match split_on sep s' with
           | [] => [String c EmptyString]
           | p :: ps => String c p :: ps
           end
  end.

(** [s.split(sep, 1)] when [sep in s]: the text before and after the first
    separator; [None] when the separator does not occur. *)
Fixpoint split_once (sep : ascii) (s : string) : option (string * string) :=
  match s with
  | EmptyString => None
  | String c s' =>
      if Ascii.eqb c sep then Some (EmptyString, s')
      else match split_once sep s' with
           | Some (k, v) => Some (String c k, v)
           | None => None
           end
  end.

(** [str(z)] for an [int]. *)
Definition str_of_Z (z : Z) : string := NilZero.string_of_int (Z.to_int z).

(** [str(n)] for a non-negative count. *)
Definition str_of_nat (n : nat) : string := str_of_Z (Z.of_nat n).

End Py.

(* ===================================================================== *)
(** ** Data model *)
(* ===================================================================== *)

(** JSON scalars that occur as ticket identifier and revision marker. *)
Inductive pyval :=
| PNone
| PStr (s : string)
| PInt (z : Z).

#[global] Instance pyval_eq_dec : EqDecision pyval.
Proof. solve_decision. Defined.

(** [str(v)] *)
Definition py_str (v : pyval) : string :=
  match v with
  | PNone => "None"
  | PStr s => s
  | PInt z => Py.str_of_Z z
  end.

(** [bool(v)] *)
Definition py_truthy (v : pyval) : bool :=
  match v with
  | PNone => false
  | PStr s => Py.truthy s
  | PInt z => negb (z =? 0)%Z
  end.

(** A ticket as returned by the ticketing API.  [None] in a field means
    that the key is missing from the dict. *)
Record Ticket := mkTicket {
  t_ticket_id : option pyval;
  t_ticket_hash : option string;
  t_subject : option string;
  t_company_name : option string;
  t_email : option string;
  t_priority : option string;
  t_status : option string;
  t_modify_date : option pyval
}.

#[global] Instance Ticket_eq_dec : EqDecision Ticket.
Proof. solve_decision. Defined.

(** One entry of [state["seen_tickets"]]. *)
Record SeenRecord := mkSeen {
  sr_modify_date : option pyval;
  sr_first_seen : option string;
  sr_last_updated : option string
}.

#[global] Instance SeenRecord_eq_dec : EqDecision SeenRecord.
Proof. solve_decision. Defined.

(** The persisted document. *)
Record WatcherState := mkState {
  seen_tickets : option (gmap string SeenRecord);
  last_check : option string
}.

(** [{"seen_tickets": {}, "last_check": None}] *)
Definition empty_state : WatcherState :=
  {| seen_tickets := Some ∅; last_check := None |}.

(* ===================================================================== *)
(** ** Change detection: the loop of [check_tickets] *)
(* ===================================================================== *)

Section Detection.

(** [datetime.now().isoformat()] at the n-th reading of the clock. *)
Variable now_iso : nat -> string.

(** Accumulator of the loop: the [seen] dict, the two result lists and
    the number of clock readings made. *)
Record Scan := mkScan {
  sc_seen : gmap string SeenRecord;
  sc_new : list Ticket;
  sc_updated : list Ticket;
  sc_tick : nat
}.

(** [str(ticket.get("ticket_id", ""))] *)
Definition ticket_key (t : Ticket) : string :=
  py_str (default (PStr "") (t_ticket_id t)).

(** [ticket.get("modify_date", "")] *)
Definition ticket_rev (t : Ticket) : pyval :=
  default (PStr "") (t_modify_date t).

(** [seen[ticket_id].get("modify_date")] *)
Definition stored_rev (r : SeenRecord) : pyval :=
  default PNone (sr_modify_date r).

(** One iteration of [for ticket in tickets]. *)
Definition check_one (a : Scan) (t : Ticket) : Scan :=
  let ticket_id := ticket_key t in
  if negb (Py.truthy ticket_id) then a
  else
    let modify_time := ticket_rev t in
    match sc_seen a !! ticket_id with
    | None =>
        {| sc_seen := <[ticket_id :=
                         {| sr_modify_date := Some modify_time;
                            sr_first_seen := Some (now_iso (sc_tick a));
                            sr_last_updated := None |}]> (sc_seen a);
           sc_new := sc_new a ++ [t];
           sc_updated := sc_updated a;
           sc_tick := S (sc_tick a) |}
    | Some r =>
        if decide (stored_rev r ≠ modify_time) then
          {| sc_seen := <[ticket_id :=
                           {| sr_modify_date := Some modify_time;
                              sr_first_seen := sr_first_seen r;
                              sr_last_updated := Some (now_iso (sc_tick a)) |}]>
                          (sc_seen a);
             sc_new := sc_new a;
             sc_updated := sc_updated a ++ [t];
             sc_tick := S (sc_tick a) |}
        else a
    end.

Definition check_loop (tickets : list Ticket) (a : Scan) : Scan :=
  fold_left check_one tickets a.

(** The part of [check_tickets] after the upstream query returned
    [tickets]: diff against the state, then store [seen] and stamp
    [last_check].  Returns the mutated state, the two lists and the
    clock position. *)
Definition detect (tickets : list Ticket) (state : WatcherState) (tick : nat)
  : WatcherState * list Ticket * list Ticket * nat :=
  let seen := default ∅ (seen_tickets state) in
  let a := check_loop tickets
             {| sc_seen := seen; sc_new := []; sc_updated := []; sc_tick := tick |} in
  ({| seen_tickets := Some (sc_seen a);
      last_check := Some (now_iso (sc_tick a)) |},
   sc_new a, sc_updated a, S (sc_tick a)).

End Detection.

(* ===================================================================== *)
(** ** Triage classifier: skip filter and deterministic fallback *)
(* ===================================================================== *)

Definition nl : string := String (ascii_of_nat 10) EmptyString.
Definition dq : string := String (ascii_of_nat 34) EmptyString.

Definition billing_keywords : list string :=
  [ "invoice"; "payment"; "funding"; "funds"; "billing";
    "receipt"; "statement"; "balance due"; "pay now";
    "eligible invoices"; "get funds"; "received your invoice" ].

Definition spam_domains : list string :=
  [ "marketing"; "newsletter"; "promo"; "noreply@" ].

Definition system_keywords : list string :=
  [ "automatic notification"; "do not reply"; "system alert" ].

(** [should_skip_ticket(ticket)]: the pair [(should_skip, reason)]. *)
Definition should_skip_ticket (ticket : Ticket) : bool * string :=
  let subject := Py.lower (default "" (Py.or_else (t_subject ticket) (Some ""))) in
  let company := Py.lower (default "" (Py.or_else (t_company_name ticket) (Some ""))) in
  let email := Py.lower (default "" (Py.or_else (t_email ticket) (Some ""))) in
  if Py.any_in billing_keywords subject then (true, "billing/invoice")
  else if Py.any_in spam_domains email then (true, "spam sender")
  else if Py.any_in system_keywords subject then (true, "system notification")
  else (false, "").

Definition spam_signals : list string :=
  [ "unsubscribe"; "click here"; "act now"; "limited time"; "invoice attached";
    "get funds"; "eligible invoices"; "marketing"; "newsletter" ].

Definition auto_signals : list string :=
  [ "automatic reply"; "auto-reply"; "autoreply"; "i am currently out";
    "i will be out of the office"; "i'm currently out";
    "thank you for your email"; "i will respond when i return" ].

Definition request_signals : list string :=
  [ "please"; "need"; "want"; "can you"; "could you"; "forward"; "change"; "update" ].

Definition billing_signals : list string :=
  [ "invoice"; "payment"; "billing"; "charge"; "receipt"; "account balance" ].

Definition urgent_signals : list string :=
  [ "down"; "not working"; "emergency"; "urgent"; "asap"; "can't make calls";
    "no dial tone" ].

(** The four lines of a triage text. *)
Definition verdict_text (summary category urgency action : string) : string :=
  "**Summary:** " ++ summary ++ nl ++
  "**Category:** " ++ category ++ nl ++
  "**Urgency:** " ++ urgency ++ nl ++
  "**Action:** " ++ action.

(** [generate_fallback_triage(ticket, subject, content, reason)] *)
Definition generate_fallback_triage
    (ticket : Ticket) (subject content reason : string) : string :=
  let subject_lower := Py.lower subject in
  let content_lower := Py.take 500 (Py.lower content) in
  let combined := subject_lower ++ " " ++ content_lower in
  if Py.any_in spam_signals combined then
    "**Summary:** Likely spam or marketing email" ++ nl ++
    "**Category:** spam" ++ nl ++
    "**Urgency:** ⚪ None" ++ nl ++
    "**Action:** Ignore - spam/marketing"
  else
    let is_request := Py.any_in request_signals combined in
    if Py.any_in auto_signals combined && negb is_request then
      "**Summary:** Auto-reply/OOO message" ++ nl ++
      "**Category:** other" ++ nl ++
      "**Urgency:** ⚪ None" ++ nl ++
      "**Action:** Close - auto-reply"
    else if Py.any_in billing_signals combined then
      "**Summary:** " ++ Py.take 60 subject ++ nl ++
      "**Category:** billing" ++ nl ++
      "**Urgency:** 🟢 Low" ++ nl ++
      "**Action:** Forward to accounting"
    else
      let urgency :=
        if Py.any_in urgent_signals combined then "🔴 High"
        else if Py.any_in ["forwarding"; "routing"; "voicemail"; "greeting"] combined
             then "🟡 Medium"
             else "🟡 Medium" in
      let category :=
        if Py.any_in ["forward"; "routing"; "route"; "transfer"; "redirect"] combined
        then "routing"
        else if Py.any_in ["voicemail"; "vm"; "greeting"; "message"] combined
        then "voicemail"
        else if Py.any_in ["phone"; "handset"; "device"; "hardware"] combined
        then "hardware"
        else "other" in
      let reason_note :=
        if Py.truthy reason then " (fallback: " ++ reason ++ ")" else "" in
      "**Summary:** " ++ Py.take 60 subject ++ nl ++
      "**Category:** " ++ category ++ nl ++
      "**Urgency:** " ++ urgency ++ nl ++
      "**Action:** Review ticket" ++ reason_note.

(** [re.sub(r'<[^>]+>', ' ', content)]: [inside] holds the characters read
    since an opening bracket that has not been closed yet ([None] outside
    a candidate tag).  A candidate that is never closed is kept as it is. *)
Fixpoint strip_tags_from (inside : option string) (s : string) : string :=
  match s with
  | EmptyString =>
      match inside with
      | None => EmptyString
      | Some buf => String "<" buf
      end
  | String c s' =>
      match inside with
      | None =>
          if Ascii.eqb c "<" then strip_tags_from (Some EmptyString) s'
          else String c (strip_tags_from None s')
      | Some buf =>
          if Ascii.eqb c ">" then
            match buf with
            | EmptyString => String "<" (String ">" (strip_tags_from None s'))
            | String _ _ => String " " (strip_tags_from None s')
            end
          else strip_tags_from (Some (buf ++ String c EmptyString)) s'
      end
  end.

Definition strip_tags (s : string) : string := strip_tags_from None s.

(** [re.sub(r'\s+', ' ', s)]: every maximal run of white space becomes one
    blank.  [in_run] tells that the previous character was white space. *)
Fixpoint collapse_ws_from (in_run : bool) (s : string) : string :=
  match s with
  | EmptyString => EmptyString
  | String c s' =>
      if Py.is_space c then
        if in_run then collapse_ws_from true s'
        else String " " (collapse_ws_from true s')
      else String c (collapse_ws_from false s')
  end.

Definition collapse_ws (s : string) : string := collapse_ws_from false s.

(** The body text handed to the reasoner and to the fallback. *)
Definition clean_content (content : string) : string :=
  Py.take 2000 (Py.strip (collapse_ws (strip_tags content))).

(** The prompt of [triage_with_claude]. *)
Definition triage_prompt
    (ticket_hash subject company priority email content_text : string) : string :=
  "Triage this support ticket. Even if you can't gather telecom context, ALWAYS provide a useful summary." ++ nl ++
  nl ++
  "Ticket: " ++ ticket_hash ++ nl ++
  "Subject: " ++ subject ++ nl ++
  "Company: " ++ company ++ nl ++
  "Priority: " ++ priority ++ nl ++
  "From: " ++ email ++ nl ++
  nl ++
  "Content:" ++ nl ++
  content_text ++ nl ++
  nl ++
  "Respond with this EXACT format (fill in the brackets):" ++ nl ++
  nl ++
  "**Summary:** [One sentence: what does the customer need?]" ++ nl ++
  "**Category:** [routing | voicemail | hardware | billing | access | spam | other]" ++ nl ++
  "**Urgency:** [🔴 High - service down/urgent | 🟡 Medium - needs attention today | 🟢 Low - can wait | ⚪ None - spam/auto-reply]" ++ nl ++
  "**Action:** [What should a tech do? Or " ++ dq ++ "Ignore - spam" ++ dq ++
     " / " ++ dq ++ "Close - auto-reply" ++ dq ++ " if not actionable]" ++ nl ++
  nl ++
  "Rules:" ++ nl ++
  "- ALWAYS fill in all 4 fields, even for spam/junk tickets" ++ nl ++
  "- If it's spam, marketing, or an auto-reply: Category=spam, Urgency=⚪ None, Action=Ignore" ++ nl ++
  "- If it's billing/invoice related: Category=billing, suggest forwarding to accounting" ++ nl ++
  "- Keep total response under 400 chars" ++ nl ++
  "- No extra commentary".

(** [filter_important(tickets)] *)
Definition filter_important (tickets : list Ticket) : list Ticket :=
  filter (fun t => t_priority t = Some "High" ∨ t_priority t = Some "Urgent") tickets.

(** [{"Urgent": .., "High": .., "Medium": .., "Low": ..}.get(priority, ..)] *)
Definition priority_emoji (priority : string) : string :=
  if String.eqb priority "Urgent" then "🔴"
  else if String.eqb priority "High" then "🟠"
  else if String.eqb priority "Medium" then "🟡"
  else if String.eqb priority "Low" then "🟢"
  else "⚪".

Definition priority_color (priority : string) : Z :=
  if String.eqb priority "Urgent" then 0xff0000
  else if String.eqb priority "High" then 0xff8800
  else if String.eqb priority "Medium" then 0xffcc00
  else if String.eqb priority "Low" then 0x00cc00
  else 0x888888.

(* ===================================================================== *)
(** ** The outside world and the effects of a run *)
(* ===================================================================== *)

(** Exceptions that travel through the script. *)
Inductive exn :=
| RuntimeError (msg : string)
| CalledProcessError (msg : string)
| RequestException (msg : string)
| FileNotFoundError (msg : string)
| IsADirectoryError (msg : string)
| OverflowError (msg : string)
| AttributeError (msg : string)
| UnicodeDecodeError (msg : string)
| SystemExit (code : Z).

(** [str(e)] *)
Definition exn_str (e : exn) : string :=
  match e with
  | RuntimeError m | CalledProcessError m | RequestException m
  | FileNotFoundError m | IsADirectoryError m
  | OverflowError m | AttributeError m | UnicodeDecodeError m => m
  | SystemExit c => Py.str_of_Z c
  end.

(** Outcome of [subprocess.run(["pass", path], check=True)]: the output of
    a run that ended with status 0, the [CalledProcessError] of a run that
    ended with another status, or the [FileNotFoundError] of a run that
    could not start because there is no [pass] program. *)
Inductive pass_result :=
| PassOutput (stdout : string)
| PassFailed (msg : string)
| PassMissing (msg : string).

(** The JSON document of an API answer, with the keys the script reads. *)
Record api_json := mkJson {
  j_data : option (list Ticket);
  j_content : option string
}.

(** Outcome of [requests.get], [raise_for_status] and [response.json()]. *)
Inductive http_result :=
| HttpJson (j : api_json)
| HttpFailed (msg : string).

(** Outcome of [subprocess.run(["claude", "--print", prompt], timeout=60)]. *)
Inductive claude_result :=
| ClaudeExited (returncode : Z) (stdout : string)
| ClaudeTimeout
| ClaudeError (msg : string).

(** Outcome of a post to [chat.postMessage]: the [ok] flag of the answer,
    its [error] text, or a transport failure. *)
Inductive slack_result :=
| SlackOk
| SlackRefused (error : string)
| SlackFailed (msg : string).

(** Outcome of a webhook post followed by [raise_for_status]. *)
Inductive webhook_result :=
| WebhookOk
| WebhookFailed (msg : string).

(** Payload of [post_triage_to_slack]. *)
Record slack_payload := mkSlackPayload {
  sp_channel : string;
  sp_text : string;
  sp_section : string;
  sp_context : string
}.

(** One embed of a webhook payload. *)
Record embed := mkEmbed {
  em_title : string;
  em_url : option string;
  em_description : option string;
  em_color : Z;
  em_fields : list (string * string);
  em_footer : string
}.

(** What a run does to the outside, in order. *)
Inductive event :=
| Stdout (line : string)
| StdoutJson (new updated : list Ticket) (timestamp : string)
| Stderr (line : string)
| PassCall (path : string)
| HttpGet (url : string) (params : list (string * pyval))
| ClaudeCall (prompt : string)
| SlackPost (bot_token : string) (payload : slack_payload)
| WebhookPost (url : string) (payload : embed).

(** Contents of a file: a JSON object holding a watcher state, text that
    [json.loads] rejects, JSON text whose value is not an object (a list, a
    string, a number, [true], [false] or [null]), or bytes that are not
    text in the encoding of [read_text]. *)
Inductive file_content :=
| JsonState (st : WatcherState)
| NotJson (raw : string)
| JsonNotObject (raw : string)
| NotText.

(** What [load_state] hands to a cycle: a state object, or a JSON value
    that is not an object. *)
Inductive state_doc :=
| StateObject (st : WatcherState)
| NotObject (raw : string).

Record FS := mkFS {
  fs_dirs : gset string;
  fs_files : gmap string file_content
}.

(** The oracles.  The [nat] argument is the number of interactions with the
    outside made before the call. *)
Record World := mkWorld {
  w_now_epoch : nat -> Z;
  w_now_iso : nat -> string;
  w_now_strftime : string -> nat -> string;
  w_format_timestamp : pyval -> string;
  w_pass : nat -> string -> pass_result;
  w_http_get : nat -> string -> list (string * pyval) -> http_result;
  w_claude : nat -> string -> claude_result;
  w_slack : nat -> string -> slack_payload -> slack_result;
  w_webhook : nat -> string -> embed -> webhook_result;
  w_environ : gmap string string;
  w_default_state_file : string
}.

Record RunState := mkRun {
  rs_tick : nat;
  rs_trace : list event;
  rs_fs : FS
}.

Inductive result (A : Type) :=
| Ok (a : A)
| Raise (e : exn).
Arguments Ok {A} a.
Arguments Raise {A} e.

(** Computations of the script: they read and extend the run state and
    either return or raise. *)
Definition M (A : Type) : Type := RunState -> result A * RunState.

Definition ret {A} (a : A) : M A := fun s => (Ok a, s).

Definition bind {A B} (m : M A) (k : A -> M B) : M B :=
  fun s => match m s with
           | (Ok a, s') => k a s'
           | (Raise e, s') => (Raise e, s')
           end.

Definition raise {A} (e : exn) : M A := fun s => (Raise e, s).

(** A computation that touches nothing. *)
Definition lift {A} (r : result A) : M A := fun s => (r, s).

(** [try: m  except Exception as e: h(e)]; [SystemExit] is not an
    [Exception] and passes through. *)
Definition try_except {A} (m : M A) (h : exn -> M A) : M A :=
  fun s => match m s with
           | (Ok a, s') => (Ok a, s')
           | (Raise (SystemExit c), s') => (Raise (SystemExit c), s')
           | (Raise e, s') => h e s'
           end.

Declare Scope run_scope.
Delimit Scope run_scope with run.
Notation "x <- m ;; k" := (bind m (fun x => k))
  (at level 90, m at level 89, right associativity) : run_scope.
Notation "m ;;; k" := (bind m (fun _ => k))
  (at level 90, right associativity) : run_scope.
Local Open Scope run_scope.

(** Record an effect. *)
Definition emit (e : event) : M unit :=
  fun s => (Ok tt, {| rs_tick := rs_tick s; rs_trace := rs_trace s ++ [e]; rs_fs := rs_fs s |}).

(** Consult an oracle at the current position and advance. *)
Definition ask {A} (oracle : nat -> A) : M A :=
  fun s => (Ok (oracle (rs_tick s)),
            {| rs_tick := S (rs_tick s); rs_trace := rs_trace s; rs_fs := rs_fs s |}).

Definition print (line : string) : M unit := emit (Stdout line).
Definition eprint (line : string) : M unit := emit (Stderr line).

(* ===================================================================== *)
(** ** Credential resolver and ticketing API *)
(* ===================================================================== *)

Record Credentials := mkCreds {
  c_token : string;
  c_url : string
}.

(** The loop over the lines of the secret: [creds[key.strip()] = ...]. *)
Definition parse_line (creds : gmap string string) (line : string)
  : gmap string string :=
  if Py.contains "=" line && negb (Py.startswith "#" (Py.strip line)) then
    match Py.split_once "=" line with
    | Some (key, value) => <[Py.strip key := Py.strip_quote (Py.strip value)]> creds
    | None => creds
    end
  else creds.

Definition parse_creds (stdout : string) : gmap string string :=
  fold_left parse_line (Py.split_on (ascii_of_nat 10) (Py.strip stdout)) ∅.

(** The [normalized] dict: its [token] entry, if any, and its [url]. *)
Definition normalize (creds : gmap string string) : option string * string :=
  let token1 := creds !! "VISION_TOKEN" in
  let token2 := match creds !! "token" with
                | Some t => Some t
                | None => token1
                end in
  (token2, default "https://clients.sipcapturer.com/api/index.php" (creds !! "url")).

(** [d[k] = v] on a dict kept in insertion order: a key already present
    keeps its place and takes the new value. *)
Fixpoint dict_set (d : list (string * pyval)) (k : string) (v : pyval)
  : list (string * pyval) :=
  match d with
  | [] => [(k, v)]
  | (k', v') :: d' =>
      if String.eqb k' k then (k', v) :: d' else (k', v') :: dict_set d' k v
  end.

(** [{**d, **params}] *)
Definition dict_update (d params : list (string * pyval)) : list (string * pyval) :=
  fold_left (fun acc kv => dict_set acc kv.1 kv.2) params d.

(** [int((datetime.now() - timedelta(hours=h)).timestamp())] for a clock
    reading in whole seconds: the subtraction raises [OverflowError] when the
    result leaves the years 1 to 9999. *)
Definition datetime_min : Z := (-62135596800)%Z.
Definition datetime_max : Z := 253402300799%Z.

Definition since_of (now lookback_hours : Z) : result Z :=
  let t := (now - lookback_hours * 3600)%Z in
  if (datetime_min <=? t)%Z && (t <=? datetime_max)%Z then Ok t
  else Raise (OverflowError "date value out of range").

Section WithWorld.

Variable w : World.

Fixpoint try_paths (profile : string) (paths : list string) : M Credentials :=
  match paths with
  | [] => raise (RuntimeError ("Could not load credentials for profile " ++ profile))
  | path :: rest =>
      emit (PassCall path) ;;;
      r <- ask (fun n => w_pass w n path) ;;
      match r with
      | PassOutput stdout =>
          let '(token, url) := normalize (parse_creds stdout) in
          if Py.truthy_opt token
          then ret {| c_token := default "" token; c_url := url |}
          else try_paths profile rest
      | PassFailed _ => try_paths profile rest
      | PassMissing msg => raise (FileNotFoundError msg)
      end
  end.

(** [get_credentials(profile)] *)
Definition get_credentials (profile : string) : M Credentials :=
  try_paths profile
    [ "vision/" ++ profile; profile ++ "/visionhelpdesk/env" ].

(** [api_request(operation, params, profile)] *)
Definition api_request (operation : string) (params : list (string * pyval))
    (profile : string) : M api_json :=
  creds <- get_credentials profile ;;
  let request_params :=
    dict_update
      [ ("vis_txttoken", PStr (c_token creds));
        ("vis_module", PStr "ticket");
        ("vis_operation", PStr operation);
        ("vis_encode", PStr "json") ] params in
  emit (HttpGet (c_url creds) request_params) ;;;
  r <- ask (fun n => w_http_get w n (c_url creds) request_params) ;;
  match r with
  | HttpJson j => ret j
  | HttpFailed msg => raise (RequestException msg)
  end.

(** [get_ticket_details(ticket_id, profile)]: any failure gives [{}]. *)
Definition get_ticket_details (ticket_id : pyval) (profile : string) : M api_json :=
  try_except
    (api_request "ticket_details" [("vis_ticket_id", ticket_id)] profile)
    (fun _ => ret {| j_data := None; j_content := None |}).

(** [check_tickets(profile, state, lookback_hours)].  The start of the
    window is computed first, then the upstream query is made, and only then
    is the state read ([state.get], which a value that is not an object does
    not have) and mutated; the mutated state is returned next to the two
    lists. *)
Definition check_tickets (profile : string) (state : state_doc)
    (lookback_hours : Z) : M (WatcherState * list Ticket * list Ticket) :=
  now <- ask (w_now_epoch w) ;;
  since <- lift (since_of now lookback_hours) ;;
  let params :=
    [ ("vis_filter", PStr ("modify_date>" ++ Py.str_of_Z since));
      ("vis_details_req", PInt 1);
      ("vis_skip_info", PInt 1);
      ("vis_limit", PStr "0,100") ] in
  result <- api_request "get_tickets" params profile ;;
  let tickets := default [] (j_data result) in
  match state with
  | NotObject _ => raise (AttributeError "object has no attribute 'get'")
  | StateObject state =>
      fun s =>
        let '(state', new_tickets, updated_tickets, tick') :=
          detect (w_now_iso w) tickets state (rs_tick s) in
        (Ok (state', new_tickets, updated_tickets),
         {| rs_tick := tick'; rs_trace := rs_trace s; rs_fs := rs_fs s |})
  end.

(** [triage_with_claude(ticket, ticket_details)] *)
Definition triage_with_claude (ticket : Ticket) (ticket_details : api_json)
  : M string :=
  let ticket_hash := default "?" (t_ticket_hash ticket) in
  let subject := default "No subject" (t_subject ticket) in
  let company :=
    let c := default "Unknown" (t_company_name ticket) in
    if Py.truthy c then c else "Unknown" in
  let priority := default "?" (t_priority ticket) in
  let email := default "" (t_email ticket) in
  let content := default "" (j_content ticket_details) in
  let content_text := clean_content content in
  let prompt := triage_prompt ticket_hash subject company priority email content_text in
  emit (ClaudeCall prompt) ;;;
  r <- ask (fun n => w_claude w n prompt) ;;
  match r with
  | ClaudeExited returncode stdout =>
      if (returncode =? 0)%Z && Py.truthy (Py.strip stdout)
      then ret (Py.strip stdout)
      else ret (generate_fallback_triage ticket subject content_text "")
  | ClaudeTimeout =>
      ret (generate_fallback_triage ticket subject content_text "timeout")
  | ClaudeError msg =>
      ret (generate_fallback_triage ticket subject content_text (Py.take 50 msg))
  end.

Definition ticket_url (ticket_hash : string) (ticket_id : pyval) : string :=
  "https://clients.sipcapturer.com/manage/#/ticket/ticket_details/"
    ++ ticket_hash ++ "/" ++ py_str ticket_id.

(** [post_triage_to_discord(webhook_url, ticket, triage_summary)] *)
Definition post_triage_to_discord (webhook_url : string) (ticket : Ticket)
    (triage_summary : string) : M unit :=
  let ticket_hash := default "?" (t_ticket_hash ticket) in
  let ticket_id := default (PStr "") (t_ticket_id ticket) in
  let subject := Py.take 80 (default "No subject" (t_subject ticket)) in
  let priority := default "?" (t_priority ticket) in
  let company := default "Unknown" (t_company_name ticket) in
  hhmm <- ask (w_now_strftime w "%H:%M") ;;
  let payload :=
    {| em_title := priority_emoji priority ++ " " ++ ticket_hash ++ ": " ++ subject;
       em_url := Some (ticket_url ticket_hash ticket_id);
       em_description := Some (Py.take 2000 triage_summary);
       em_color := priority_color priority;
       em_fields := [];
       em_footer := company ++ " • " ++ hhmm |} in
  emit (WebhookPost webhook_url payload) ;;;
  r <- ask (fun n => w_webhook w n webhook_url payload) ;;
  match r with
  | WebhookOk => print ("Posted triage for " ++ ticket_hash)
  | WebhookFailed msg => eprint ("Discord post failed: " ++ msg)
  end.

(** [post_triage_to_slack(channel, ticket, triage_summary, bot_token)] *)
Definition post_triage_to_slack (channel : string) (ticket : Ticket)
    (triage_summary : string) (bot_token : string) : M unit :=
  let ticket_hash := default "?" (t_ticket_hash ticket) in
  let ticket_id := default (PStr "") (t_ticket_id ticket) in
  let subject := Py.take 80 (default "No subject" (t_subject ticket)) in
  let priority := default "?" (t_priority ticket) in
  let company :=
    let c := default "Unknown" (t_company_name ticket) in
    if Py.truthy c then c else "Unknown" in
  hhmm <- ask (w_now_strftime w "%H:%M") ;;
  let payload :=
    {| sp_channel := channel;
       sp_text := priority_emoji priority ++ " " ++ ticket_hash ++ ": " ++ subject;
       sp_section := Py.take 2900 triage_summary;
       sp_context := "*" ++ company ++ "* • " ++ priority ++ " • " ++ hhmm ++
                     " • <" ++ ticket_url ticket_hash ticket_id ++ "|View Ticket>" |} in
  emit (SlackPost bot_token payload) ;;;
  r <- ask (fun n => w_slack w n bot_token payload) ;;
  match r with
  | SlackOk => print ("Posted triage for " ++ ticket_hash ++ " to Slack #" ++ channel)
  | SlackRefused error => eprint ("Slack post failed: " ++ error)
  | SlackFailed msg => eprint ("Slack post failed: " ++ msg)
  end.

(** The body of [for ticket in tickets[:10]] with its counter. *)
Fixpoint triage_loop (tickets : list Ticket) (triaged_count : nat)
    (profile : string) (slack_channel slack_token discord_webhook : option string)
  : M unit :=
  match tickets with
  | [] => ret tt
  | ticket :: rest =>
      if (5 <=? triaged_count)%nat then ret tt
      else
        let ticket_id := t_ticket_id ticket in
        let ticket_hash := default "?" (t_ticket_hash ticket) in
        let '(should_skip, skip_reason) := should_skip_ticket ticket in
        if should_skip then
          print ("Skipping " ++ ticket_hash ++ " (" ++ skip_reason ++ ")") ;;;
          triage_loop rest triaged_count profile slack_channel slack_token discord_webhook
        else
          print ("Triaging " ++ ticket_hash ++ "...") ;;;
          details <- match ticket_id with
                     | Some i => if py_truthy i then get_ticket_details i profile
                                 else ret {| j_data := None; j_content := None |}
                     | None => ret {| j_data := None; j_content := None |}
                     end ;;
          summary <- triage_with_claude ticket details ;;
          (if Py.truthy_opt slack_channel && Py.truthy_opt slack_token then
             post_triage_to_slack (default "" slack_channel) ticket summary
                                  (default "" slack_token)
           else if Py.truthy_opt discord_webhook then
             post_triage_to_discord (default "" discord_webhook) ticket summary
           else
             print ("--- " ++ ticket_hash ++ " ---") ;;;
             print summary ;;;
             print "") ;;;
          triage_loop rest (S triaged_count) profile slack_channel slack_token
                      discord_webhook
  end.

(** [triage_tickets_immediately(tickets, profile, slack_channel,
    slack_token, discord_webhook)] *)
Definition triage_tickets_immediately (tickets : list Ticket) (profile : string)
    (slack_channel slack_token discord_webhook : option string) : M unit :=
  triage_loop (firstn 10 tickets) 0 profile slack_channel slack_token discord_webhook.

(** One entry of the [fields] list of [send_discord_alert]. *)
Definition alert_field (t : Ticket) : string * string :=
  let priority := default "?" (t_priority t) in
  let status := default "?" (t_status t) in
  let company := Py.take 30 (default "Unknown" (t_company_name t)) in
  let subject := Py.take 100 (default "No subject" (t_subject t)) in
  let ticket_hash :=
    match t_ticket_hash t with
    | Some h => h
    | None => py_str (default (PStr "?") (t_ticket_id t))
    end in
  let modified := w_format_timestamp w (ticket_rev t) in
  (priority_emoji priority ++ " " ++ ticket_hash ++ " — " ++ status,
   "**" ++ subject ++ "**" ++ nl ++ company ++ " • " ++ modified).

(** [send_discord_alert(webhook_url, title, tickets, color)] *)
Definition send_discord_alert (webhook_url title : string) (tickets : list Ticket)
    (color : Z) : M unit :=
  match tickets with
  | [] => ret tt
  | _ :: _ =>
      let fields := map alert_field (firstn 10 tickets) in
      stamp <- ask (w_now_strftime w "%Y-%m-%d %H:%M") ;;
      let footer := "Vision Helpdesk • " ++ stamp in
      let footer :=
        if (10 <? length tickets)%nat
        then footer ++ " • +" ++ Py.str_of_nat (length tickets - 10) ++ " more"
        else footer in
      let payload :=
        {| em_title := title; em_url := None; em_description := None;
           em_color := color; em_fields := fields; em_footer := footer |} in
      emit (WebhookPost webhook_url payload) ;;;
      r <- ask (fun n => w_webhook w n webhook_url payload) ;;
      match r with
      | WebhookOk => ret tt
      | WebhookFailed msg => eprint ("Failed to send Discord alert: " ++ msg)
      end
  end.

End WithWorld.

(* ===================================================================== *)
(** ** State store *)
(* ===================================================================== *)

(** The text of [p] before its last slash, if it has one. *)
Fixpoint before_last_slash (p : string) : option string :=
  match p with
  | EmptyString => None
  | String c p' =>
      match before_last_slash p' with
      | Some d => Some (String c d)
      | None => if Ascii.eqb c "/" then Some EmptyString else None
      end
  end.

(** [Path(p).parent] for a path in normal form. *)
Definition parent_dir (p : string) : string :=
  match before_last_slash p with
  | None => "."
  | Some EmptyString => "/"
  | Some d => d
  end.

(** [load_state(state_file)]: whatever JSON value the file holds is
    returned as it is; a path that is no file (missing, or a directory,
    whose [read_text] raises an [IOError]) and text that is not JSON give
    the empty state; bytes that are not text make [read_text] raise
    [UnicodeDecodeError], which the handler does not catch. *)
Definition load_state (state_file : string) : M state_doc :=
  fun s =>
    match fs_files (rs_fs s) !! state_file with
    | Some (JsonState st) => (Ok (StateObject st), s)
    | Some (JsonNotObject raw) => (Ok (NotObject raw), s)
    | Some (NotJson _) => (Ok (StateObject empty_state), s)
    | Some NotText =>
        (Raise (UnicodeDecodeError "'utf-8' codec can't decode bytes"), s)
    | None => (Ok (StateObject empty_state), s)
    end.

(** [Path(p).write_text(text)]: opening for writing needs the parent
    directory and refuses a directory. *)
Definition write_text (p : string) (c : file_content) : M unit :=
  fun s =>
    let fs := rs_fs s in
    if decide (p ∈ fs_dirs fs) then
      (Raise (IsADirectoryError ("[Errno 21] Is a directory: '" ++ p ++ "'")), s)
    else if decide (parent_dir p ∈ fs_dirs fs) then
      (Ok tt, {| rs_tick := rs_tick s; rs_trace := rs_trace s;
                 rs_fs := {| fs_dirs := fs_dirs fs;
                             fs_files := <[p := c]> (fs_files fs) |} |})
    else
      (Raise (FileNotFoundError ("[Errno 2] No such file or directory: '" ++ p ++ "'")), s).

(** [save_state(state, state_file)] *)
Definition save_state (state : WatcherState) (state_file : string) : M unit :=
  write_text state_file (JsonState state).

(* ===================================================================== *)
(** ** Run controller *)
(* ===================================================================== *)

Record Args := mkArgs {
  a_profile : string;
  a_state_file : string;
  a_webhook_url : option string;
  a_hours : Z;
  a_quiet : bool;
  a_important_only : bool;
  a_triage : bool;
  a_slack_channel : option string;
  a_slack_token : option string;
  a_json : bool
}.

(** How the process ends. *)
Inductive outcome :=
| Exited (code : Z)
| Uncaught (e : exn).


Section Cycle.

Variable w : World.

Definition is_nonempty {A} (l : list A) : bool :=
  match l with [] => false | _ :: _ => true end.

(** The lines [NEW: hash - subject] at the end of [main]. *)
Fixpoint print_new (tickets : list Ticket) : M unit :=
  match tickets with
  | [] => ret tt
  | t :: rest =>
      print ("  NEW: " ++ default "None" (t_ticket_hash t) ++ " - " ++
             Py.take 50 (default "" (t_subject t))) ;;;
      print_new rest
  end.

(** The body of [main()] after argument parsing. *)
Definition main_body (args : Args) : M unit :=
  let webhook_url :=
    Py.or_else (a_webhook_url args) (w_environ w !! "VISION_WATCHER_WEBHOOK") in
  let state_file :=
    if Py.truthy (a_state_file args) then a_state_file args
    else default (w_default_state_file w) (w_environ w !! "VISION_WATCHER_STATE") in
  state <- load_state state_file ;;
  r <- try_except
         (check_tickets w (a_profile args) state (a_hours args))
         (fun e =>
            eprint ("Error checking tickets: " ++ exn_str e) ;;;
            raise (SystemExit 1)) ;;
  let '(state, new_tickets, updated_tickets) := r in
  let new_tickets :=
    if a_important_only args then filter_important new_tickets else new_tickets in
  let updated_tickets :=
    if a_important_only args then filter_important updated_tickets
    else updated_tickets in
  save_state state state_file ;;;
  if a_json args then
    stamp <- ask (w_now_iso w) ;;
    emit (StdoutJson new_tickets updated_tickets stamp)
  else
    (if negb (a_quiet args) then
       stamp <- ask (w_now_strftime w "%Y-%m-%d %H:%M") ;;
       print ("Checked at " ++ stamp) ;;;
       print ("New tickets: " ++ Py.str_of_nat (length new_tickets)) ;;;
       print ("Updated tickets: " ++ Py.str_of_nat (length updated_tickets))
     else ret tt) ;;;
    (if a_triage args && is_nonempty new_tickets then
       let slack_token :=
         Py.or_else (a_slack_token args) (w_environ w !! "SLACK_BOT_TOKEN") in
       triage_tickets_immediately w new_tickets (a_profile args)
         (a_slack_channel args) slack_token webhook_url
     else if Py.truthy_opt webhook_url then
       (if is_nonempty new_tickets then
          send_discord_alert w (default "" webhook_url)
            ("🎫 " ++ Py.str_of_nat (length new_tickets) ++ " New Ticket(s)")
            new_tickets 0x00ff00
        else ret tt) ;;;
       (if is_nonempty updated_tickets then
          let important_updates := filter_important updated_tickets in
          if is_nonempty important_updates then
            send_discord_alert w (default "" webhook_url)
              ("🔄 " ++ Py.str_of_nat (length important_updates) ++
               " High-Priority Update(s)")
              important_updates 0xffaa00
          else ret tt
        else ret tt)
     else ret tt) ;;;
    (if is_nonempty new_tickets then
       (if negb (a_quiet args) then print_new new_tickets else ret tt) ;;;
       raise (SystemExit 0)
     else raise (SystemExit 0)).

(** [main()] as the operating system sees it. *)
Definition main (args : Args) (s : RunState) : outcome * RunState :=
  match main_body args s with
  | (Ok _, s') => (Exited 0, s')
  | (Raise (SystemExit c), s') => (Exited c, s')
  | (Raise e, s') => (Uncaught e, s')
  end.

End Cycle.

(* ===================================================================== *)
(** ** Vocabulary of the properties *)
(* ===================================================================== *)

(** The state and clock position after a sequence of polling cycles, one
    upstream response per cycle. *)
Fixpoint run_cycles (now_iso : nat -> string) (responses : list (list Ticket))
    (state : WatcherState) (tick : nat) : WatcherState * nat :=
  match responses with
  | [] => (state, tick)
  | tickets :: rest =>
      let '(state', _, _, tick') := detect now_iso tickets state tick in
      run_cycles now_iso rest state' tick'
  end.

(** The [seen] dict a run works on: [state.get("seen_tickets", {})]. *)
Definition seen_of (state : WatcherState) : gmap string SeenRecord :=
  default ∅ (seen_tickets state).

(** The revision carried by the last record for identifier [k] in a
    sequence of received records. *)
Fixpoint last_rev (k : string) (tickets : list Ticket) : option pyval :=
  match tickets with
  | [] => None
  | t :: rest =>
      match last_rev k rest with
      | Some v => Some v
      | None => if decide (ticket_key t = k) then Some (ticket_rev t) else None
      end
  end.

(** The two lists of a second detection run over the same dataset, started
    from the state the first run left. *)
Definition second_run (now_iso : nat -> string) (tickets : list Ticket)
    (state : WatcherState) (tick : nat) : list Ticket * list Ticket :=
  let '(state1, _, _, tick1) := detect now_iso tickets state tick in
  let '(_, new2, updated2, _) := detect now_iso tickets state1 tick1 in
  (new2, updated2).

(** Records of a dataset that share an identifier carry one revision. *)
Definition consistent_revs (tickets : list Ticket) : Prop :=
  ∀ t1 t2, In t1 tickets → In t2 tickets →
    ticket_key t1 = ticket_key t2 → ticket_key t1 ≠ "" →
    ticket_rev t1 = ticket_rev t2.

(** Event classes. *)
Definition is_claude (e : event) : bool :=
  match e with ClaudeCall _ => true | _ => false end.
Definition is_slack (e : event) : bool :=
  match e with SlackPost _ _ => true | _ => false end.
Definition is_webhook (e : event) : bool :=
  match e with WebhookPost _ _ => true | _ => false end.
Definition is_fetch (e : event) : bool :=
  match e with PassCall _ | HttpGet _ _ => true | _ => false end.

Definition count_ev (p : event -> bool) (tr : list event) : nat :=
  length (List.filter p tr).

(** Lines written to the local output. *)
Definition stdout_lines (tr : list event) : list string :=
  omap (fun e => match e with Stdout l => Some l | _ => None end) tr.



(** A run that starts with nothing done yet. *)
Definition fresh (tick : nat) (fs : FS) : RunState :=
  {| rs_tick := tick; rs_trace := []; rs_fs := fs |}.



Section Routing.

Variable w : World.



End Routing.

(** Every character of [s] satisfies [p]. *)
Fixpoint all_chars (p : ascii -> bool) (s : string) : bool :=
  match s with
  | EmptyString => true
  | String c s' => p c && all_chars p s'
  end.

(** [c] does not occur in [s]. *)
Definition lacks (c : ascii) (s : string) : bool :=
  all_chars (fun x => negb (Ascii.eqb x c)) s.



(** The secret a lookup yields, if it has a non-empty token. *)
Definition creds_of (r : pass_result) : option Credentials :=
  match r with
  | PassOutput stdout =>
      let '(token, url) := normalize (parse_creds stdout) in
      if Py.truthy_opt token then Some {| c_token := default "" token; c_url := url |}
      else None
  | PassFailed _ | PassMissing _ => None
  end.



(** The state file of a run, as [main] computes it. *)
Definition state_file_of (w : World) (args : Args) : string :=
  if Py.truthy (a_state_file args) then a_state_file args
  else default (w_default_state_file w) (w_environ w !! "VISION_WATCHER_STATE").

(** [open(p, "w")] can succeed. *)
Definition writable (fs : FS) (p : string) : bool :=
  bool_decide (p ∉ fs_dirs fs) && bool_decide (parent_dir p ∈ fs_dirs fs).

(** [m] returns, leaves the file system alone and adds only events of
    class [P]. *)
Definition returns {A} (P : event -> bool) (m : M A) : Prop :=
  ∀ s, ∃ a s' evs,
    m s = (Ok a, s') ∧ rs_fs s' = rs_fs s
    ∧ rs_trace s' = (rs_trace s ++ evs)%list ∧ forallb P evs = true.

(** [m] returns or raises an [Exception], leaves the file system alone and
    adds only events of class [P]. *)
Definition attempts {A} (P : event -> bool) (m : M A) : Prop :=
  ∀ s, ∃ r s' evs,
    m s = (r, s') ∧ rs_fs s' = rs_fs s
    ∧ rs_trace s' = (rs_trace s ++ evs)%list ∧ forallb P evs = true
    ∧ ∀ c, r ≠ Raise (SystemExit c).





Definition not_post (e : event) : bool :=
  negb (is_claude e || is_slack e || is_webhook e)
  && match e with Stdout _ | StdoutJson _ _ _ => false | _ => true end.

(** The document of the state file as a cycle sees it: what [load_state]
    returns, and for bytes that are not text, where [load_state] raises and
    the cycle ends before the check, a value that is no object. *)
Definition loaded_state (fs : FS) (p : string) : state_doc :=
  match fs_files fs !! p with
  | Some (JsonState st) => StateObject st
  | Some (JsonNotObject raw) => NotObject raw
  | Some NotText => NotObject ""
  | Some (NotJson _) | None => StateObject empty_state
  end.

(** The file system after a successful [write_text]. *)
Definition fs_write (fs : FS) (p : string) (c : file_content) : FS :=
  {| fs_dirs := fs_dirs fs; fs_files := <[p := c]> (fs_files fs) |}.

(* ===================================================================== *)
(** ** Sample data *)
(* ===================================================================== *)

(** Sample data: ticket 1 at three revisions, ticket 2. *)
Definition sample_ticket (id : Z) (rev : Z) : Ticket :=
  {| t_ticket_id := Some (PInt id); t_ticket_hash := Some "VH-1";
     t_subject := Some "no dial tone"; t_company_name := Some "Acme";
     t_email := Some "joe@acme.example"; t_priority := Some "High";
     t_status := Some "Open"; t_modify_date := Some (PInt rev) |}.

Definition sample_state : WatcherState :=
  {| seen_tickets :=
       Some {[ "1" := {| sr_modify_date := Some (PInt 100);
                         sr_first_seen := Some "2026-01-01T00:00:00";
                         sr_last_updated := None |} ]};
     last_check := Some "2026-01-01T00:00:00" |}.

Definition sample_clock (n : nat) : string := "2026-01-02T00:00:0" ++ Py.str_of_nat n.

(** Twenty new tickets that pass the skip filter, and a world that serves
    them: the secret is in the store, the reasoner times out, every post
    is accepted. *)
Definition ticket_no (i : Z) : Ticket :=
  {| t_ticket_id := Some (PInt i); t_ticket_hash := Some ("VH-" ++ Py.str_of_Z i);
     t_subject := Some "Phone is not ringing"; t_company_name := Some "Acme";
     t_email := Some "joe@acme.example"; t_priority := Some "Medium";
     t_status := Some "Open"; t_modify_date := Some (PInt 1000) |}.

Definition tickets20 : list Ticket := map ticket_no (seqZ 101 20).

Definition is_get_tickets (params : list (string * pyval)) : bool :=
  existsb (fun kv => String.eqb kv.1 "vis_operation"
                     && bool_decide (kv.2 = PStr "get_tickets")) params.

Definition world20 : World :=
  {| w_now_epoch := fun _ => 1767312000%Z;
     w_now_iso := sample_clock;
     w_now_strftime := fun _ _ => "2026-01-02 00:00";
     w_format_timestamp := py_str;
     w_pass := fun _ path =>
       if String.eqb path "vision/20859" then PassOutput "VISION_TOKEN=abc123"
       else PassFailed "not in the password store";
     w_http_get := fun _ _ params =>
       if is_get_tickets params
       then HttpJson {| j_data := Some tickets20; j_content := None |}
       else HttpJson {| j_data := None;
                        j_content := Some "<p>Our phone does not ring</p>" |};
     w_claude := fun _ _ => ClaudeTimeout;
     w_slack := fun _ _ _ => SlackOk;
     w_webhook := fun _ _ _ => WebhookOk;
     w_environ := ∅;
     w_default_state_file := "/home/ops/.vision-watcher-state.json" |}.

Definition home_fs : FS :=
  {| fs_dirs := {[ "/"; "/home"; "/home/ops" ]}; fs_files := ∅ |}.




(** A secret as [pass] prints it: a comment, the legacy token key with a
    quoted value, a blank line and the URL. *)
Definition sample_secret : string :=
  "# vision helpdesk" ++ nl ++
  "VISION_TOKEN=" ++ dq ++ "abc123" ++ dq ++ nl ++
  nl ++
  "url = https://helpdesk.example/api/index.php" ++ nl.

(** The sample cycle with JSON output, and with nothing but [--quiet]. *)
Definition args_json : Args :=
  {| a_profile := "20859";
     a_state_file := "/home/ops/.vision-watcher-state.json";
     a_webhook_url := Some "https://discord.example/hook"; a_hours := 2;
     a_quiet := false; a_important_only := true; a_triage := true;
     a_slack_channel := Some "htel-team"; a_slack_token := Some "xoxb-1";
     a_json := true |}.

Definition args_quiet : Args :=
  {| a_profile := "20859";
     a_state_file := "/home/ops/.vision-watcher-state.json";
     a_webhook_url := None; a_hours := 2; a_quiet := true;
     a_important_only := false; a_triage := false;
     a_slack_channel := None; a_slack_token := None; a_json := false |}.

(** A file system whose state file is damaged. *)
Definition damaged_fs : FS :=
  {| fs_dirs := {[ "/"; "/home"; "/home/ops" ]};
     fs_files := {[ "/home/ops/.vision-watcher-state.json" := NotJson "{seen_" ]} |}.

(** A world without news: the upstream returns an empty list. *)
Definition world_idle : World :=
  {| w_now_epoch := fun _ => 1767312000%Z;
     w_now_iso := sample_clock;
     w_now_strftime := fun _ _ => "2026-01-02 00:00";
     w_format_timestamp := py_str;
     w_pass := fun _ path =>
       if String.eqb path "vision/20859" then PassOutput "VISION_TOKEN=abc123"
       else PassFailed "not in the password store";
     w_http_get := fun _ _ _ => HttpJson {| j_data := Some []; j_content := None |};
     w_claude := fun _ _ => ClaudeTimeout;
     w_slack := fun _ _ _ => SlackFailed "connection refused";
     w_webhook := fun _ _ _ => WebhookFailed "connection refused";
     w_environ := {[ "VISION_WATCHER_WEBHOOK" := "https://discord.example/hook" ]};
     w_default_state_file := "/home/ops/.vision-watcher-state.json" |}.

Definition args_plain : Args :=
  {| a_profile := "20859";
     a_state_file := "/home/ops/.vision-watcher-state.json";
     a_webhook_url := None; a_hours := 2; a_quiet := false;
     a_important_only := false; a_triage := true;
     a_slack_channel := None; a_slack_token := None; a_json := false |}.

(** A world that serves the same two tickets on every query while every
    post fails. *)
Definition world_flaky : World :=
  {| w_now_epoch := fun _ => 1767312000%Z;
     w_now_iso := sample_clock;
     w_now_strftime := fun _ _ => "2026-01-02 00:00";
     w_format_timestamp := py_str;
     w_pass := fun _ path =>
       if String.eqb path "vision/20859" then PassOutput "VISION_TOKEN=abc123"
       else PassFailed "not in the password store";
     w_http_get := fun _ _ params =>
       if is_get_tickets params
       then HttpJson {| j_data := Some (firstn 2 tickets20); j_content := None |}
       else HttpFailed "503 Server Error";
     w_claude := fun _ _ => ClaudeError "claude: command not found";
     w_slack := fun _ _ _ => SlackFailed "connection refused";
     w_webhook := fun _ _ _ => WebhookFailed "connection refused";
     w_environ := {[ "VISION_WATCHER_WEBHOOK" := "https://discord.example/hook" ]};
     w_default_state_file := "/home/ops/.vision-watcher-state.json" |}.

(* ===================================================================== *)
(** ** Vocabulary of the further properties *)
(* ===================================================================== *)

(** The ticket passes [if not ticket_id: continue]. *)
Definition has_id (t : Ticket) : bool := Py.truthy (ticket_key t).

(** The classification of one record against a [seen] dict. *)
Definition is_new (seen : gmap string SeenRecord) (t : Ticket) : bool :=
  has_id t && bool_decide (seen !! ticket_key t = None).

Definition is_updated (seen : gmap string SeenRecord) (t : Ticket) : bool :=
  has_id t && match seen !! ticket_key t with
              | Some r => bool_decide (stored_rev r ≠ ticket_rev t)
              | None => false
              end.

(** The identifiers of a response are pairwise distinct (records without
    an identifier do not count). *)
Definition distinct_ids (tickets : list Ticket) : Prop :=
  NoDup (map ticket_key (List.filter has_id tickets)).

(** A character that is no white space, or the blank. *)
Definition blank_or_ink (c : ascii) : bool :=
  negb (Py.is_space c) || Ascii.eqb c " ".

Definition is_http (e : event) : bool :=
  match e with HttpGet _ _ => true | _ => false end.

Definition is_pass (e : event) : bool :=
  match e with PassCall _ => true | _ => false end.

(** [d.get(k)] on a dict kept in insertion order. *)
Fixpoint dict_get (k : string) (d : list (string * pyval)) : option pyval :=
  match d with
  | [] => None
  | (k', v) :: d' => if String.eqb k' k then Some v else dict_get k d'
  end.

(** The fixed head of the parameters of every API request. *)
Definition request_head (token operation : string) : list (string * pyval) :=
  [ ("vis_txttoken", PStr token); ("vis_module", PStr "ticket");
    ("vis_operation", PStr operation); ("vis_encode", PStr "json") ].

(** The ticket with subject and sender folded to lower case. *)
Definition lower_fields (t : Ticket) : Ticket :=
  {| t_ticket_id := t_ticket_id t; t_ticket_hash := t_ticket_hash t;
     t_subject := Py.lower <$> t_subject t;
     t_company_name := t_company_name t;
     t_email := Py.lower <$> t_email t;
     t_priority := t_priority t; t_status := t_status t;
     t_modify_date := t_modify_date t |}.

Section Report.

Variable w : World.

(** The part of [main()] after the state has been saved: the output, the
    notifications and the exit. *)
Definition main_report (args : Args) (webhook_url : option string)
    (new_tickets updated_tickets : list Ticket) : M unit :=
  (if a_json args then
     stamp <- ask (w_now_iso w) ;;
     emit (StdoutJson new_tickets updated_tickets stamp)
   else
     (if negb (a_quiet args) then
        stamp <- ask (w_now_strftime w "%Y-%m-%d %H:%M") ;;
        print ("Checked at " ++ stamp) ;;;
        print ("New tickets: " ++ Py.str_of_nat (length new_tickets)) ;;;
        print ("Updated tickets: " ++ Py.str_of_nat (length updated_tickets))
      else ret tt) ;;;
     (if a_triage args && is_nonempty new_tickets then
        let slack_token :=
          Py.or_else (a_slack_token args) (w_environ w !! "SLACK_BOT_TOKEN") in
        triage_tickets_immediately w new_tickets (a_profile args)
          (a_slack_channel args) slack_token webhook_url
      else if Py.truthy_opt webhook_url then
        (if is_nonempty new_tickets then
           send_discord_alert w (default "" webhook_url)
             ("🎫 " ++ Py.str_of_nat (length new_tickets) ++ " New Ticket(s)")
             new_tickets 0x00ff00
         else ret tt) ;;;
        (if is_nonempty updated_tickets then
           let important_updates := filter_important updated_tickets in
           if is_nonempty important_updates then
             send_discord_alert w (default "" webhook_url)
               ("🔄 " ++ Py.str_of_nat (length important_updates) ++
                " High-Priority Update(s)")
               important_updates 0xffaa00
           else ret tt
         else ret tt)
      else ret tt) ;;;
     (if is_nonempty new_tickets then
        (if negb (a_quiet args) then print_new new_tickets else ret tt) ;;;
        raise (SystemExit 0)
      else raise (SystemExit 0)))%run.

End Report.

(** The webhook of a run: [args.webhook_url or os.environ.get(...)]. *)
Definition webhook_of (w : World) (args : Args) : option string :=
  Py.or_else (a_webhook_url args) (w_environ w !! "VISION_WATCHER_WEBHOOK").

(** The lists a run reports: filtered when [--important-only] is given. *)
Definition reported (args : Args) (tickets : list Ticket) : list Ticket :=
  if a_important_only args then filter_important tickets else tickets.

(* ===================================================================== *)
(** * Properties *)
(* ===================================================================== *)

(** ** Detection *)

Lemma truthy_nonempty (s : string) : Py.truthy s = true ↔ s ≠ "".
Proof. destruct s; simpl; split; intros; congruence. Qed.

Section DetectionFacts.

Variable now_iso : nat -> string.

Lemma check_one_other (a : Scan) (t : Ticket) (k : string) :
  ticket_key t ≠ k →
  sc_seen (check_one now_iso a t) !! k = sc_seen a !! k.
Proof.
  intros Hne. unfold check_one.
  destruct (negb (Py.truthy (ticket_key t))); [done|].
  destruct (sc_seen a !! ticket_key t) as [r|] eqn:E; simpl.
  - destruct (decide (stored_rev r ≠ ticket_rev t)); simpl; [|done].
    by rewrite lookup_insert_ne.
  - by rewrite lookup_insert_ne.
Qed.

Lemma check_one_same (a : Scan) (t : Ticket) :
  ticket_key t ≠ "" →
  ∃ r', sc_seen (check_one now_iso a t) !! ticket_key t = Some r'
        ∧ stored_rev r' = ticket_rev t.
Proof.
  intros Hk. apply truthy_nonempty in Hk. unfold check_one. rewrite Hk. simpl.
  destruct (sc_seen a !! ticket_key t) as [r|] eqn:E; simpl.
  - destruct (decide (stored_rev r ≠ ticket_rev t)) as [Hd|Hd]; simpl.
    + rewrite lookup_insert_eq. eauto.
    + exists r. split; [done|]. by destruct (decide (stored_rev r = ticket_rev t)).
  - rewrite lookup_insert_eq. eauto.
Qed.

Lemma check_one_first_seen (a : Scan) (t : Ticket) (k : string) (r : SeenRecord) :
  sc_seen a !! k = Some r →
  ∃ r', sc_seen (check_one now_iso a t) !! k = Some r'
        ∧ sr_first_seen r' = sr_first_seen r.
Proof.
  intros Hr. destruct (decide (ticket_key t = k)) as [<-|Hne].
  - unfold check_one. destruct (negb (Py.truthy (ticket_key t))); [eauto|].
    rewrite Hr. destruct (decide (stored_rev r ≠ ticket_rev t)); simpl; [|eauto].
    rewrite lookup_insert_eq. eauto.
  - rewrite check_one_other; eauto.
Qed.

Lemma check_loop_cons (t : Ticket) (ts : list Ticket) (a : Scan) :
  check_loop now_iso (t :: ts) a = check_loop now_iso ts (check_one now_iso a t).
Proof. reflexivity. Qed.

Lemma last_rev_None (k : string) (ts : list Ticket) :
  last_rev k ts = None ↔ ∀ t, In t ts → ticket_key t ≠ k.
Proof.
  induction ts as [|t ts IH]; simpl.
  - split; [intros _ ? []|done].
  - destruct (last_rev k ts) as [v|] eqn:E.
    + split; [done|]. intros H. exfalso.
      assert (Some v = None) as Hc; [|done].
      apply IH. intros t' Ht'. apply H. by right.
    + destruct (decide (ticket_key t = k)) as [Hk|Hk].
      * split; [done|]. intros H. destruct (H t); auto.
      * split; [|done]. intros _ t' [<-|Ht']; [done|].
        by apply IH.
Qed.

Lemma last_rev_Some (k : string) (ts : list Ticket) (v : pyval) :
  last_rev k ts = Some v → ∃ t, In t ts ∧ ticket_key t = k ∧ ticket_rev t = v.
Proof.
  induction ts as [|t ts IH]; simpl; [done|].
  destruct (last_rev k ts) as [v'|] eqn:E.
  - intros [= <-]. destruct IH as (t' & ? & ? & ?); [done|]. exists t'. auto.
  - destruct (decide (ticket_key t = k)); [|done].
    intros [= <-]. exists t. auto.
Qed.

Lemma last_rev_app (k : string) (l1 l2 : list Ticket) :
  last_rev k (l1 ++ l2) =
    match last_rev k l2 with Some v => Some v | None => last_rev k l1 end.
Proof.
  induction l1 as [|t l1 IH]; simpl.
  - by destruct (last_rev k l2).
  - rewrite IH. by destruct (last_rev k l2).
Qed.

(** Records of identifiers that a response does not mention are untouched. *)
Lemma check_loop_frame (ts : list Ticket) (a : Scan) (k : string) :
  last_rev k ts = None →
  sc_seen (check_loop now_iso ts a) !! k = sc_seen a !! k.
Proof.
  revert a. induction ts as [|t ts IH]; intros a; [done|].
  intros H. rewrite check_loop_cons.
  pose proof (proj1 (last_rev_None k (t :: ts)) H) as Hall.
  rewrite IH.
  - apply check_one_other. apply Hall. by left.
  - apply last_rev_None. intros t' Ht'. apply Hall. by right.
Qed.

(** After a response, the stored revision of a mentioned identifier is
    the one of its last record. *)
Lemma check_loop_last (ts : list Ticket) (a : Scan) (k : string) (v : pyval) :
  k ≠ "" → last_rev k ts = Some v →
  ∃ r', sc_seen (check_loop now_iso ts a) !! k = Some r' ∧ stored_rev r' = v.
Proof.
  intros Hk. revert a. induction ts as [|t ts IH]; intros a; simpl; [done|].
  destruct (last_rev k ts) as [v'|] eqn:E.
  - intros [= <-]. fold (check_loop now_iso ts (check_one now_iso a t)). by apply IH.
  - destruct (decide (ticket_key t = k)) as [<-|]; [|done].
    intros [= <-]. fold (check_loop now_iso ts (check_one now_iso a t)).
    rewrite check_loop_frame; [|done]. by apply check_one_same.
Qed.

Lemma check_loop_first_seen (ts : list Ticket) (a : Scan) (k : string) (r : SeenRecord) :
  sc_seen a !! k = Some r →
  ∃ r', sc_seen (check_loop now_iso ts a) !! k = Some r'
        ∧ sr_first_seen r' = sr_first_seen r.
Proof.
  revert a r. induction ts as [|t ts IH]; intros a r Hr; [eauto|].
  rewrite check_loop_cons.
  destruct (check_one_first_seen a t k r Hr) as (r1 & H1 & E1).
  destruct (IH _ _ H1) as (r2 & H2 & E2). exists r2. split; [done|]. congruence.
Qed.

(** A response whose records all agree with the store changes nothing. *)
Lemma check_loop_quiet (ts : list Ticket) (a : Scan) :
  (∀ t, In t ts → ticket_key t ≠ "" →
        ∃ r, sc_seen a !! ticket_key t = Some r ∧ stored_rev r = ticket_rev t) →
  check_loop now_iso ts a = a.
Proof.
  induction ts as [|t ts IH]; intros H; [done|].
  rewrite check_loop_cons.
  assert (check_one now_iso a t = a) as ->.
  { unfold check_one. destruct (Py.truthy (ticket_key t)) eqn:Ht; simpl; [|done].
    destruct (H t) as (r & -> & Hr); [by left|by apply truthy_nonempty|].
    destruct (decide (stored_rev r ≠ ticket_rev t)); [done|done]. }
  apply IH. intros t' Ht'. apply H. by right.
Qed.

Lemma seen_of_detect (ts : list Ticket) (state : WatcherState) (tick : nat) :
  seen_of (detect now_iso ts state tick).1.1.1 =
    sc_seen (check_loop now_iso ts
               {| sc_seen := seen_of state; sc_new := []; sc_updated := [];
                  sc_tick := tick |}).
Proof. reflexivity. Qed.

Lemma run_cycles_cons (ts : list Ticket) (rest : list (list Ticket))
    (state : WatcherState) (tick : nat) :
  run_cycles now_iso (ts :: rest) state tick =
    run_cycles now_iso rest (detect now_iso ts state tick).1.1.1
               (detect now_iso ts state tick).2.
Proof. simpl. by destruct (detect now_iso ts state tick) as [[[? ?] ?] ?]. Qed.

Lemma run_cycles_last (responses : list (list Ticket)) (state : WatcherState)
    (tick : nat) (k : string) (r : SeenRecord) :
  seen_of state !! k = Some r → k ≠ "" →
  ∃ r', seen_of (run_cycles now_iso responses state tick).1 !! k = Some r'
        ∧ stored_rev r' = default (stored_rev r) (last_rev k (concat responses)).
Proof.
  intros Hr Hk. revert state tick r Hr.
  induction responses as [|ts rest IH]; intros state tick r Hr; [simpl; eauto|].
  rewrite run_cycles_cons. simpl concat. rewrite last_rev_app.
  set (st1 := (detect now_iso ts state tick).1.1.1).
  set (tk1 := (detect now_iso ts state tick).2).
  assert (∃ r1, seen_of st1 !! k = Some r1
                ∧ stored_rev r1 = default (stored_rev r) (last_rev k ts))
    as (r1 & H1 & E1).
  { subst st1. rewrite seen_of_detect.
    destruct (last_rev k ts) as [v|] eqn:E.
    - by apply check_loop_last.
    - rewrite check_loop_frame; [|done]. simpl. eauto. }
  destruct (IH st1 tk1 r1 H1) as (r' & H' & E'). exists r'. split; [done|].
  rewrite E'. destruct (last_rev k (concat rest)); simpl; [done|]. exact E1.
Qed.

Lemma run_cycles_first_seen (responses : list (list Ticket)) (state : WatcherState)
    (tick : nat) (k : string) (r : SeenRecord) :
  seen_of state !! k = Some r →
  ∃ r', seen_of (run_cycles now_iso responses state tick).1 !! k = Some r'
        ∧ sr_first_seen r' = sr_first_seen r
        ∧ (Forall (λ ts, ∀ t, In t ts → ticket_key t ≠ k) responses → r' = r).
Proof.
  revert state tick r.
  induction responses as [|ts rest IH]; intros state tick r Hr; [simpl; eauto|].
  rewrite run_cycles_cons.
  set (st1 := (detect now_iso ts state tick).1.1.1).
  set (tk1 := (detect now_iso ts state tick).2).
  assert (∃ r1, seen_of st1 !! k = Some r1 ∧ sr_first_seen r1 = sr_first_seen r
                ∧ ((∀ t, In t ts → ticket_key t ≠ k) → r1 = r))
    as (r1 & H1 & E1 & F1).
  { subst st1. rewrite seen_of_detect.
    destruct (check_loop_first_seen ts
                {| sc_seen := seen_of state; sc_new := []; sc_updated := [];
                   sc_tick := tick |} k r Hr) as (r1 & H1 & E1).
    exists r1. split; [done|]. split; [done|].
    intros Hno. apply last_rev_None in Hno.
    rewrite check_loop_frame in H1; [|done]. simpl in H1. congruence. }
  destruct (IH st1 tk1 r1 H1) as (r' & H' & E' & F'). exists r'.
  split; [done|]. split; [congruence|].
  intros Hall. inversion Hall; subst. rewrite F'; auto.
Qed.

End DetectionFacts.

Lemma last_rev_concat_None (k : string) (responses : list (list Ticket)) :
  Forall (λ ts, ∀ t, In t ts → ticket_key t ≠ k) responses →
  last_rev k (concat responses) = None.
Proof.
  induction 1 as [|ts rest Hts _ IH]; [done|].
  simpl. rewrite last_rev_app, IH. by apply last_rev_None.
Qed.

(** C1. Last write wins: once an identifier is recorded, a received record
    for it leaves the store holding the received revision, and after any
    number of cycles the stored revision is the one of the last record
    received for it, that is, of the most recent response that included
    the ticket; responses in between, in whatever order, do not matter. *)
Theorem revision_last_write_wins
    (now_iso : nat -> string) (responses : list (list Ticket))
    (state : WatcherState) (tick : nat) (k : string) (r : SeenRecord) :
  seen_of state !! k = Some r → k ≠ "" →
  (∀ a t, ticket_key t = k →
     ∃ r1, sc_seen (check_one now_iso a t) !! k = Some r1
           ∧ stored_rev r1 = ticket_rev t)
  ∧ ∃ r', seen_of (run_cycles now_iso responses state tick).1 !! k = Some r'
      ∧ stored_rev r' = default (stored_rev r) (last_rev k (concat responses))
      ∧ ∀ before resp after v,
          responses = (before ++ resp :: after)%list →
          last_rev k resp = Some v →
          Forall (λ ts, ∀ t, In t ts → ticket_key t ≠ k) after →
          stored_rev r' = v.
Proof.
  intros Hr Hk. split.
  - intros a t <-. by apply check_one_same.
  - destruct (run_cycles_last now_iso responses state tick k r Hr Hk) as (r' & H & E).
    exists r'. split; [done|]. split; [done|].
    intros before resp after v -> Hv Hafter. rewrite E.
    rewrite concat_app. simpl concat. rewrite !last_rev_app.
    rewrite (last_rev_concat_None k after Hafter). by rewrite Hv.
Qed.

Lemma revision_last_write_wins_witness :
  ∃ r', seen_of (run_cycles sample_clock
                   [[sample_ticket 1 150]; [sample_ticket 2 7]; [sample_ticket 1 120]]
                   sample_state 0).1 !! "1" = Some r'
        ∧ stored_rev r' = PInt 120.
Proof.
  destruct (revision_last_write_wins sample_clock
              [[sample_ticket 1 150]; [sample_ticket 2 7]; [sample_ticket 1 120]]
              sample_state 0 "1"
              {| sr_modify_date := Some (PInt 100);
                 sr_first_seen := Some "2026-01-01T00:00:00";
                 sr_last_updated := None |})
    as [_ (r' & H & E & _)].
  - vm_compute. reflexivity.
  - discriminate.
  - exists r'. split; [exact H|]. rewrite E. vm_compute. reflexivity.
Defined.

(** C2, as stated, fails when a response carries two records of one
    identifier at different revisions: the second run reports both. *)
Lemma detection_rerun_reports_duplicates :
  second_run sample_clock [sample_ticket 1 100; sample_ticket 1 150] empty_state 0
    = ([], [sample_ticket 1 100; sample_ticket 1 150])
  ∧ second_run sample_clock [sample_ticket 1 100; sample_ticket 1 150] empty_state 0
    ≠ ([], []).
Proof. split; [vm_compute; reflexivity | vm_compute; discriminate]. Qed.

(** C2 (amended). Detection is idempotent on every dataset whose records
    for one identifier agree on the revision (in particular when the
    identifiers are pairwise distinct): a second run over the same dataset,
    from the state the first run left, returns no new and no updated
    ticket. *)
Theorem detection_idempotent
    (now_iso : nat -> string) (tickets : list Ticket)
    (state : WatcherState) (tick : nat) :
  consistent_revs tickets →
  second_run now_iso tickets state tick = ([], []).
Proof.
  intros Hc. unfold second_run, detect. simpl.
  set (a1 := check_loop now_iso tickets
               {| sc_seen := seen_of state; sc_new := []; sc_updated := [];
                  sc_tick := tick |}).
  fold (seen_of state). fold a1.
  rewrite check_loop_quiet; [done|]. simpl.
  intros t Ht Hk.
  destruct (last_rev (ticket_key t) tickets) as [v|] eqn:E.
  - destruct (last_rev_Some _ _ _ E) as (t' & Ht' & Hk' & Hv').
    destruct (check_loop_last now_iso tickets
                {| sc_seen := seen_of state; sc_new := []; sc_updated := [];
                   sc_tick := tick |} (ticket_key t) v Hk E) as (r' & H' & E').
    exists r'. split; [exact H'|]. rewrite E', <- Hv'.
    apply Hc; auto. congruence.
  - exfalso. by apply (proj1 (last_rev_None _ _) E t Ht).
Qed.

Lemma detection_idempotent_witness :
  second_run sample_clock
    [sample_ticket 1 150; sample_ticket 2 7; sample_ticket 1 150] sample_state 0
  = ([], []).
Proof.
  apply detection_idempotent.
  intros t1 t2 [<-|[<-|[<-|[]]]] [<-|[<-|[<-|[]]]]; vm_compute; congruence.
Defined.

(** C10. A detection run that classifies a ticket as updated rewrites the
    revision and the last-updated stamp of its record and nothing else;
    the first-seen stamp of a recorded ticket survives every later run;
    the record of a ticket that a response does not mention stays as it
    is. *)
Theorem first_seen_is_preserved
    (now_iso : nat -> string) (responses : list (list Ticket))
    (state : WatcherState) (tick : nat) (k : string) (r : SeenRecord) :
  seen_of state !! k = Some r →
  (∀ a t, ticket_key t = k → k ≠ "" → sc_seen a !! k = Some r →
          stored_rev r ≠ ticket_rev t →
          sc_updated (check_one now_iso a t) = (sc_updated a ++ [t])%list
          ∧ sc_new (check_one now_iso a t) = sc_new a
          ∧ sc_seen (check_one now_iso a t) =
              <[k := {| sr_modify_date := Some (ticket_rev t);
                        sr_first_seen := sr_first_seen r;
                        sr_last_updated := Some (now_iso (sc_tick a)) |}]> (sc_seen a))
  ∧ (∃ r', seen_of (run_cycles now_iso responses state tick).1 !! k = Some r'
           ∧ sr_first_seen r' = sr_first_seen r
           ∧ (Forall (λ ts, ∀ t, In t ts → ticket_key t ≠ k) responses → r' = r))
  ∧ (∀ ts k', (∀ t, In t ts → ticket_key t ≠ k') →
        seen_of (detect now_iso ts state tick).1.1.1 !! k' = seen_of state !! k').
Proof.
  intros Hr. split; [|split].
  - intros a t <- Hk Ha Hd. apply truthy_nonempty in Hk.
    unfold check_one. rewrite Hk, Ha. simpl.
    destruct (decide (stored_rev r ≠ ticket_rev t)); [done|done].
  - by apply run_cycles_first_seen.
  - intros ts k' Hno. rewrite seen_of_detect, check_loop_frame; [done|].
    by apply last_rev_None.
Qed.

Lemma first_seen_is_preserved_witness :
  ∃ r', seen_of (run_cycles sample_clock
                   [[sample_ticket 1 150]; [sample_ticket 2 7]; [sample_ticket 1 120]]
                   sample_state 0).1 !! "1" = Some r'
        ∧ sr_first_seen r' = Some "2026-01-01T00:00:00".
Proof.
  destruct (first_seen_is_preserved sample_clock
              [[sample_ticket 1 150]; [sample_ticket 2 7]; [sample_ticket 1 120]]
              sample_state 0 "1"
              {| sr_modify_date := Some (PInt 100);
                 sr_first_seen := Some "2026-01-01T00:00:00";
                 sr_last_updated := None |})
    as (_ & (r' & H & E & _) & _).
  - vm_compute. reflexivity.
  - exists r'. split; [exact H|exact E].
Defined.

(** ** Triage classifier *)

(** C3. The deterministic fallback is total and well formed: whatever the
    ticket, the subject, the body text and the failure reason (all may be
    empty), it returns a text of the four fields summary, category, urgency
    and action, with the category and the urgency taken from their closed
    enumerations. *)
Theorem fallback_is_total_and_well_formed
    (ticket : Ticket) (subject content reason : string) :
  ∃ summary category urgency action,
    generate_fallback_triage ticket subject content reason
      = verdict_text summary category urgency action
    ∧ In category ["routing"; "voicemail"; "hardware"; "billing"; "access";
                   "spam"; "other"]
    ∧ In urgency ["🔴 High"; "🟡 Medium"; "🟢 Low"; "⚪ None"].
Proof.
  unfold generate_fallback_triage. cbv zeta.
  set (combined := Py.lower subject ++ " " ++ Py.take 500 (Py.lower content)).
  destruct (Py.any_in spam_signals combined).
  { exists "Likely spam or marketing email", "spam", "⚪ None", "Ignore - spam/marketing".
    split; [reflexivity|]. simpl. tauto. }
  destruct (Py.any_in auto_signals combined && negb (Py.any_in request_signals combined)).
  { exists "Auto-reply/OOO message", "other", "⚪ None", "Close - auto-reply".
    split; [reflexivity|]. simpl. tauto. }
  destruct (Py.any_in billing_signals combined).
  { exists (Py.take 60 subject), "billing", "🟢 Low", "Forward to accounting".
    split; [reflexivity|]. simpl. tauto. }
  eexists (Py.take 60 subject), _, _,
    ("Review ticket" ++ (if Py.truthy reason then " (fallback: " ++ reason ++ ")" else "")).
  split; [reflexivity|].
  split.
  - repeat match goal with |- context [if ?b then _ else _] => destruct b end;
      simpl; tauto.
  - repeat match goal with |- context [if ?b then _ else _] => destruct b end;
      simpl; tauto.
Qed.

(** The fallback on a ticket with empty subject and empty body. *)
Example fallback_on_empty_input :
  generate_fallback_triage
    (mkTicket None None None None None None None None) "" "" ""
  = verdict_text "" "other" "🟡 Medium" "Review ticket".
Proof. vm_compute. reflexivity. Qed.

(** The scenario of the design notes: subject [no dial tone]. *)
Example fallback_on_no_dial_tone :
  generate_fallback_triage (sample_ticket 1 100) "no dial tone" "" ""
  = verdict_text "no dial tone" "other" "🔴 High" "Review ticket".
Proof. vm_compute. reflexivity. Qed.

Lemma lower_ascii_idem (c : ascii) :
  Py.lower_ascii (Py.lower_ascii c) = Py.lower_ascii c.
Proof.
  destruct c as [[] [] [] [] [] [] [] []]; vm_compute; reflexivity.
Qed.

Lemma startswith_lower (p s : string) :
  Py.startswith p s = true → Py.startswith (Py.lower p) (Py.lower s) = true.
Proof.
  revert s. induction p as [|a p IH]; intros [|b s]; simpl; try done.
  destruct (Ascii.eqb a b) eqn:E; [|done].
  apply Ascii.eqb_eq in E. subst b. rewrite Ascii.eqb_refl. apply IH.
Qed.

Lemma contains_lower (p s : string) :
  Py.contains p s = true → Py.contains (Py.lower p) (Py.lower s) = true.
Proof.
  induction s as [|b s IH]; simpl.
  - intros H. by apply (startswith_lower p "").
  - intros [H|H]%orb_true_iff; apply orb_true_iff.
    + left. by apply (startswith_lower p (String b s)).
    + right. by apply IH.
Qed.

Lemma billing_keywords_lowercase (kw : string) :
  In kw billing_keywords → Py.lower kw = kw ∧ kw ≠ "".
Proof.
  unfold billing_keywords. simpl.
  intros H. repeat (destruct H as [<-|H]; [split; [vm_compute; reflexivity|discriminate]|]).
  destruct H.
Qed.

(** C5. A ticket whose subject contains a billing keyword, in any letter
    case, is skipped with reason [billing/invoice], and the triage cycle
    does nothing for it but write the skip line: no detail fetch, no
    verdict, no post, whatever the ticket body holds and whatever the
    outside answers. *)
Theorem billing_subject_is_skipped
    (w : World) (ticket : Ticket) (subject kw : string) :
  t_subject ticket = Some subject →
  In kw billing_keywords →
  Py.contains kw (Py.lower subject) = true ∨ Py.contains kw subject = true →
  should_skip_ticket ticket = (true, "billing/invoice")
  ∧ ∀ rest n profile slack_channel slack_token discord_webhook s,
      triage_loop w (ticket :: rest) n profile slack_channel slack_token
                  discord_webhook s
      = if (5 <=? n)%nat then (Ok tt, s)
        else triage_loop w rest n profile slack_channel slack_token discord_webhook
               {| rs_tick := rs_tick s;
                  rs_trace := rs_trace s ++
                    [Stdout ("Skipping " ++ default "?" (t_ticket_hash ticket)
                             ++ " (billing/invoice)")];
                  rs_fs := rs_fs s |}.
Proof.
  intros Hs Hkw Hc.
  destruct (billing_keywords_lowercase kw Hkw) as [Hlow Hne].
  assert (Py.contains kw (Py.lower subject) = true) as Hc'.
  { destruct Hc as [Hc|Hc]; [done|]. rewrite <- Hlow. by apply contains_lower. }
  assert (should_skip_ticket ticket = (true, "billing/invoice")) as Hskip.
  { unfold should_skip_ticket. rewrite Hs.
    assert (Py.or_else (Some subject) (Some "") = Some subject) as ->.
    { destruct subject; [|done]. simpl in Hc'. destruct kw; [done|discriminate]. }
    simpl default.
    assert (Py.any_in billing_keywords (Py.lower subject) = true) as ->; [|done].
    apply existsb_exists. eauto. }
  split; [done|].
  intros rest n profile sc st dw s. cbn [triage_loop]. rewrite Hskip.
  destruct (5 <=? n)%nat; reflexivity.
Qed.

Lemma billing_subject_is_skipped_witness :
  should_skip_ticket
    (mkTicket (Some (PInt 552)) (Some "VH-552")
       (Some "Invoice #552 attached - please pay") (Some "Acme")
       (Some "ap@acme.example") (Some "Urgent") (Some "Open") (Some (PInt 100)))
  = (true, "billing/invoice").
Proof.
  refine (proj1 (billing_subject_is_skipped
            (mkWorld (λ _, 0%Z) (λ _, "") (λ _ _, "") (λ _, "")
               (λ _ _, PassFailed "") (λ _ _ _, HttpFailed "")
               (λ _ _, ClaudeTimeout) (λ _ _ _, SlackOk) (λ _ _ _, WebhookOk) ∅ "")
            _ "Invoice #552 attached - please pay" "invoice" _ _ _)).
  - reflexivity.
  - simpl. tauto.
  - left. vm_compute. reflexivity.
Defined.

(** ** Effects of the helpers *)

Section RunFacts.

Variable w : World.

Lemma returns_ret {A} (P : event -> bool) (a : A) : returns P (ret a).
Proof.
  intros s. exists a, s, []. rewrite app_nil_r. by repeat split.
Qed.

Lemma returns_emit (P : event -> bool) (e : event) :
  P e = true → returns P (emit e).
Proof.
  intros H s. eexists tt, _, [e]. repeat split. simpl. by rewrite H.
Qed.

Lemma returns_ask {A} (P : event -> bool) (oracle : nat -> A) :
  returns P (ask oracle).
Proof.
  intros s. eexists _, _, []. simpl. rewrite app_nil_r. by repeat split.
Qed.


Lemma returns_weaken {A} (P Q : event -> bool) (m : M A) :
  (∀ e, P e = true → Q e = true) → returns P m → returns Q m.
Proof.
  intros HPQ Hm s. destruct (Hm s) as (a & s1 & e1 & E1 & F1 & T1 & P1).
  exists a, s1, e1. repeat split; try done.
  apply forallb_forall. intros e He. apply HPQ.
  by apply (proj1 (forallb_forall P e1) P1).
Qed.

Lemma attempts_of_returns {A} (P : event -> bool) (m : M A) :
  returns P m → attempts P m.
Proof.
  intros Hm s. destruct (Hm s) as (a & s1 & e1 & E1 & F1 & T1 & P1).
  exists (Ok a), s1, e1. by repeat split.
Qed.

Lemma attempts_raise {A} (P : event -> bool) (e : exn) :
  (∀ c, e ≠ SystemExit c) → attempts P (raise e : M A).
Proof.
  intros He s. exists (Raise e), s, []. rewrite app_nil_r.
  repeat split; try done. intros c [= ->]. by apply (He c).
Qed.

Lemma attempts_bind {A B} (P : event -> bool) (m : M A) (k : A -> M B) :
  attempts P m → (∀ a, attempts P (k a)) → attempts P (bind m k).
Proof.
  intros Hm Hk s. destruct (Hm s) as (r & s1 & e1 & E1 & F1 & T1 & P1 & N1).
  unfold bind. rewrite E1. destruct r as [a|e].
  - destruct (Hk a s1) as (r2 & s2 & e2 & E2 & F2 & T2 & P2 & N2).
    exists r2, s2, (e1 ++ e2)%list. rewrite E2.
    repeat split; [congruence| | |done].
    + rewrite T2, T1. by rewrite app_assoc.
    + rewrite forallb_app. by rewrite P1, P2.
  - exists (Raise e), s1, e1. repeat split; try done.
    intros c [= ->]. by apply (N1 c).
Qed.


Lemma try_paths_attempts (profile : string) (paths : list string) :
  attempts is_fetch (try_paths w profile paths).
Proof.
  induction paths as [|path rest IH]; cbn [try_paths].
  - by apply attempts_raise.
  - apply attempts_bind; [by apply attempts_of_returns, returns_emit|]. intros _.
    apply attempts_bind; [apply attempts_of_returns, returns_ask|].
    intros [out|msg|msg].
    + destruct (normalize (parse_creds out)) as [token url].
      destruct (Py.truthy_opt token); [|exact IH].
      apply attempts_of_returns, returns_ret.
    + exact IH.
    + by apply attempts_raise.
Qed.

Lemma api_request_attempts (operation : string) (params : list (string * pyval))
    (profile : string) :
  attempts is_fetch (api_request w operation params profile).
Proof.
  unfold api_request. apply attempts_bind; [apply try_paths_attempts|]. intros creds.
  apply attempts_bind; [by apply attempts_of_returns, returns_emit|]. intros _.
  apply attempts_bind; [apply attempts_of_returns, returns_ask|]. intros [j|msg].
  - apply attempts_of_returns, returns_ret.
  - by apply attempts_raise.
Qed.


Lemma since_of_attempts (P : event -> bool) (now hours : Z) :
  attempts P (lift (since_of now hours)).
Proof.
  intros s. exists (since_of now hours), s, []. rewrite app_nil_r.
  repeat split; try done. intros c. unfold since_of.
  by destruct ((datetime_min <=? now - hours * 3600)%Z
               && (now - hours * 3600 <=? datetime_max)%Z).
Qed.

Lemma check_tickets_attempts (profile : string) (state : state_doc) (hours : Z) :
  attempts is_fetch (check_tickets w profile state hours).
Proof.
  unfold check_tickets.
  apply attempts_bind; [apply attempts_of_returns, returns_ask|]. intros now.
  apply attempts_bind; [apply since_of_attempts|]. intros since.
  apply attempts_bind; [apply api_request_attempts|]. intros j.
  destruct state as [state|raw]; [|by apply attempts_raise].
  intros s.
  destruct (detect (w_now_iso w) (default [] (j_data j)) state (rs_tick s))
    as [[[st nw] up] tk] eqn:E.
  eexists _, _, []. simpl. rewrite app_nil_r. by repeat split.
Qed.

(** A value that is no object never gets through the check. *)
Lemma check_tickets_not_object (profile raw : string) (hours : Z) (s : RunState)
    (r : WatcherState * list Ticket * list Ticket) (s1 : RunState) :
  check_tickets w profile (NotObject raw) hours s ≠ (Ok r, s1).
Proof.
  unfold check_tickets, bind, lift, raise.
  destruct (ask (w_now_epoch w) s) as [[now|e] s0]; [|done].
  destruct (since_of now hours) as [since|e]; [|done].
  by destruct (api_request w _ _ profile s0) as [[j|e] s2].
Qed.


End RunFacts.

(** ** The triage cycle *)

Lemma bind_ok {A B} (m : M A) (k : A -> M B) (s s1 : RunState) (a : A) :
  m s = (Ok a, s1) → bind m k s = k a s1.
Proof. intros H. unfold bind. by rewrite H. Qed.


Lemma count_ev_app (p : event -> bool) (a b : list event) :
  count_ev p (a ++ b) = count_ev p a + count_ev p b.
Proof. unfold count_ev. by rewrite List.filter_app, length_app. Qed.







Section TriageFacts.

Variable w : World.







End TriageFacts.






(** ** Alert router *)


(** With channel, token and webhook all configured, the five verdicts of
    the sample cycle go to the channel and none to the webhook. *)
Example sample_cycle_posts_to_channel_only :
  let tr := rs_trace (triage_tickets_immediately world20 tickets20 "20859"
                        (Some "htel-team") (Some "xoxb-1")
                        (Some "https://discord.example/hook")
                        (fresh 0 home_fs)).2 in
  count_ev is_slack tr = 5 ∧ count_ev is_webhook tr = 0.
Proof. vm_compute. split; reflexivity. Qed.

(** ** State store *)

(** C9, as stated, fails: saving to a path whose parent directory does not
    exist raises, creates no directory and writes nothing. *)
Lemma save_state_missing_parent_raises :
  parent_dir "/var/lib/watcher/state.json" = "/var/lib/watcher"
  ∧ ("/var/lib/watcher" ∉ fs_dirs home_fs)
  ∧ save_state sample_state "/var/lib/watcher/state.json" (fresh 0 home_fs)
    = (Raise (FileNotFoundError
                "[Errno 2] No such file or directory: '/var/lib/watcher/state.json'"),
       fresh 0 home_fs).
Proof.
  split; [vm_compute; reflexivity|]. split.
  - apply (proj1 (bool_decide_eq_false _)). vm_compute. reflexivity.
  - unfold save_state, write_text.
    rewrite decide_False;
      [|apply (proj1 (bool_decide_eq_false _)); vm_compute; reflexivity].
    rewrite decide_False;
      [|apply (proj1 (bool_decide_eq_false _)); vm_compute; reflexivity].
    reflexivity.
Qed.

(** C9 (amended). Saving never creates a directory.  When the path can be
    opened for writing (its parent directory exists and the path is not a
    directory itself) the file afterwards holds the full state document;
    when the parent directory does not exist the save raises and leaves
    the file system as it was. *)
Theorem save_state_writes_where_parent_exists
    (state : WatcherState) (path : string) (s : RunState) :
  fs_dirs (rs_fs (save_state state path s).2) = fs_dirs (rs_fs s)
  ∧ (writable (rs_fs s) path = true →
     save_state state path s
     = (Ok tt, {| rs_tick := rs_tick s; rs_trace := rs_trace s;
                  rs_fs := fs_write (rs_fs s) path (JsonState state) |})
     ∧ fs_files (rs_fs (save_state state path s).2) !! path = Some (JsonState state))
  ∧ (parent_dir path ∉ fs_dirs (rs_fs s) →
     ∃ e, save_state state path s = (Raise e, s)).
Proof.
  unfold save_state, write_text, writable. split; [|split].
  - destruct (decide (path ∈ fs_dirs (rs_fs s))); [done|].
    destruct (decide (parent_dir path ∈ fs_dirs (rs_fs s))); done.
  - intros [H1 H2]%andb_true_iff.
    apply bool_decide_eq_true in H1. apply bool_decide_eq_true in H2.
    rewrite decide_False, decide_True; [|done|done].
    split; [done|]. simpl. apply lookup_insert_eq.
  - intros Hno. destruct (decide (path ∈ fs_dirs (rs_fs s))); [eauto|].
    rewrite decide_False; [|done]. eauto.
Qed.

Lemma save_state_writes_where_parent_exists_witness :
  fs_files (rs_fs (save_state sample_state "/home/ops/.vision-watcher-state.json"
                     (fresh 0 home_fs)).2)
    !! "/home/ops/.vision-watcher-state.json" = Some (JsonState sample_state).
Proof.
  refine (proj2 (proj1 (proj2 (save_state_writes_where_parent_exists sample_state
            "/home/ops/.vision-watcher-state.json" (fresh 0 home_fs))) _)).
  vm_compute. reflexivity.
Defined.

(** ** Credential resolver *)

Lemma lacks_cons (c x : ascii) (s : string) :
  lacks c (String x s) = true ↔ x ≠ c ∧ lacks c s = true.
Proof.
  unfold lacks. cbn [all_chars]. rewrite andb_true_iff, negb_true_iff.
  by rewrite Ascii.eqb_neq.
Qed.

Lemma append_cons (c : ascii) (s1 s2 : string) :
  String c s1 ++ s2 = String c (s1 ++ s2).
Proof. reflexivity. Qed.

Lemma append_empty_r (s : string) : s ++ "" = s.
Proof. induction s as [|c s IH]; [done|]. by rewrite append_cons, IH. Qed.

Lemma append_snoc (s1 s2 : string) (c : ascii) :
  (s1 ++ String c "") ++ s2 = s1 ++ String c s2.
Proof. induction s1 as [|x s1 IH]; [done|]. by rewrite !append_cons, IH. Qed.

























(** One lookup: a store that cannot be run ends the resolution, a secret
    with a token is returned, anything else leads to the remaining paths. *)
Lemma try_paths_step (w : World) (profile path : string) (rest : list string)
    (s : RunState) :
  try_paths w profile (path :: rest) s =
    let s1 := {| rs_tick := S (rs_tick s);
                 rs_trace := rs_trace s ++ [PassCall path];
                 rs_fs := rs_fs s |} in
    match w_pass w (rs_tick s) path with
    | PassMissing msg => (Raise (FileNotFoundError msg), s1)
    | r => match creds_of r with
           | Some c => (Ok c, s1)
           | None => try_paths w profile rest s1
           end
    end.
Proof.
  cbn [try_paths]. unfold bind, emit, ask, creds_of.
  cbn [rs_tick rs_trace rs_fs].
  destruct (w_pass w (rs_tick s) path) as [out|msg|msg]; [|done|done].
  destruct (normalize (parse_creds out)) as [token url].
  by destruct (Py.truthy_opt token).
Qed.


Lemma creds_of_token (r : pass_result) (c : Credentials) :
  creds_of r = Some c → c_token c ≠ "".
Proof.
  destruct r as [stdout|msg|msg]; [|done|done]. unfold creds_of.
  destruct (normalize (parse_creds stdout)) as [token url].
  destruct token as [[|a t]|]; simpl; try done. by intros [= <-].
Qed.

(** What the sample secret parses to. *)
Example sample_secret_parses :
  normalize (parse_creds sample_secret)
  = (Some "abc123", "https://helpdesk.example/api/index.php").
Proof. vm_compute. reflexivity. Qed.



(** ** Run controller *)

Lemma load_state_cases (p : string) (s : RunState) :
  (load_state p s = (Ok (loaded_state (rs_fs s) p), s)
   ∧ fs_files (rs_fs s) !! p ≠ Some NotText)
  ∨ (∃ e, load_state p s = (Raise e, s) ∧ (∀ c, e ≠ SystemExit c)
          ∧ fs_files (rs_fs s) !! p = Some NotText).
Proof.
  unfold load_state, loaded_state.
  destruct (fs_files (rs_fs s) !! p) as [[st|raw|raw|]|]; eauto.
Qed.

Lemma save_state_run (state : WatcherState) (p : string) (s : RunState) :
  if writable (rs_fs s) p
  then save_state state p s
       = (Ok tt, {| rs_tick := rs_tick s; rs_trace := rs_trace s;
                    rs_fs := fs_write (rs_fs s) p (JsonState state) |})
  else ∃ e, save_state state p s = (Raise e, s) ∧ ∀ c, e ≠ SystemExit c.
Proof.
  unfold save_state, write_text, writable.
  destruct (decide (p ∈ fs_dirs (rs_fs s))) as [Hd|Hd].
  - rewrite bool_decide_eq_false_2; [|by intros H; apply H]. simpl. eauto.
  - rewrite bool_decide_eq_true_2; [|done]. simpl.
    destruct (decide (parent_dir p ∈ fs_dirs (rs_fs s))) as [Hp|Hp].
    + by rewrite bool_decide_eq_true_2.
    + rewrite bool_decide_eq_false_2; [|done]. eauto.
Qed.




Section CycleFacts.

Variable w : World.




End CycleFacts.



(** A cycle whose state file has been loaded: the check, then the save,
    then the report. *)
Lemma main_after_load (w : World) (args : Args) (s : RunState) (doc : state_doc) :
  load_state (state_file_of w args) s = (Ok doc, s) →
  main w args s =
    match check_tickets w (a_profile args) doc (a_hours args) s with
    | (Raise e, s1) =>
        (Exited 1,
         {| rs_tick := rs_tick s1;
            rs_trace := rs_trace s1 ++ [Stderr ("Error checking tickets: " ++ exn_str e)];
            rs_fs := rs_fs s1 |})
    | (Ok (st, nw, up), s1) =>
        match save_state st (state_file_of w args) s1 with
        | (Raise e, s2) => (Uncaught e, s2)
        | (Ok _, s2) =>
            match main_report w args (webhook_of w args) (reported args nw)
                    (reported args up) s2 with
            | (Ok _, s') => (Exited 0, s')
            | (Raise (SystemExit c), s') => (Exited c, s')
            | (Raise e, s') => (Uncaught e, s')
            end
        end
    end.
Proof.
  intros L.
  destruct (check_tickets_attempts w (a_profile args) doc (a_hours args) s)
    as (r & s1 & evs & E & F & _ & _ & N).
  unfold main, main_body. cbv zeta.
  change (if Py.truthy (a_state_file args) then a_state_file args
          else default (w_default_state_file w)
                 (w_environ w !! "VISION_WATCHER_STATE"))
    with (state_file_of w args).
  rewrite (bind_ok _ _ _ _ _ L).
  unfold bind at 1. unfold try_except. rewrite E.
  destruct r as [[[st nw] up]|e].
  - unfold bind at 1.
    pose proof (save_state_run st (state_file_of w args) s1) as Hsave.
    destruct (writable (rs_fs s1) (state_file_of w args)).
    + rewrite Hsave. reflexivity.
    + destruct Hsave as (e & -> & He). destruct e; try done. by destruct (He code).
  - destruct e; try (unfold bind, eprint, emit, raise; reflexivity).
    by destruct (N code).
Qed.

(** A cycle whose query succeeded and whose state file can be written
    saves the detected state and then reports. *)
Lemma main_after_save (w : World) (args : Args) (s s1 : RunState)
    (st : WatcherState) (nw up : list Ticket) :
  check_tickets w (a_profile args)
    (loaded_state (rs_fs s) (state_file_of w args)) (a_hours args) s
    = (Ok (st, nw, up), s1) →
  writable (rs_fs s) (state_file_of w args) = true →
  main w args s =
    match main_report w args (webhook_of w args) (reported args nw)
            (reported args up)
            {| rs_tick := rs_tick s1; rs_trace := rs_trace s1;
               rs_fs := fs_write (rs_fs s) (state_file_of w args) (JsonState st) |}
    with
    | (Ok _, s') => (Exited 0, s')
    | (Raise (SystemExit c), s') => (Exited c, s')
    | (Raise e, s') => (Uncaught e, s')
    end.
Proof.
  intros E W.
  destruct (check_tickets_attempts w (a_profile args)
              (loaded_state (rs_fs s) (state_file_of w args)) (a_hours args) s)
    as (r & s1' & evs & E' & F & _).
  rewrite E in E'. injection E' as <- <-.
  destruct (load_state_cases (state_file_of w args) s) as [[L _]|(e & _ & _ & L)].
  - rewrite (main_after_load w args s _ L), E.
    pose proof (save_state_run st (state_file_of w args) s1) as Hsave.
    rewrite F, W in Hsave. by rewrite Hsave.
  - unfold loaded_state in E. rewrite L in E.
    by destruct (check_tickets_not_object w _ _ _ _ _ _ E).
Qed.




(* ===================================================================== *)
(** * Further properties *)
(* ===================================================================== *)

(** ** Detection: what is reported and what is recorded *)

Section DetectionMore.

Variable now_iso : nat -> string.

Lemma check_one_cases (a : Scan) (t : Ticket) :
  (check_one now_iso a t = a
   ∧ (has_id t = false
      ∨ ∃ r, sc_seen a !! ticket_key t = Some r ∧ stored_rev r = ticket_rev t))
  ∨ (has_id t = true ∧ sc_seen a !! ticket_key t = None
     ∧ check_one now_iso a t =
         {| sc_seen := <[ticket_key t :=
                          {| sr_modify_date := Some (ticket_rev t);
                             sr_first_seen := Some (now_iso (sc_tick a));
                             sr_last_updated := None |}]> (sc_seen a);
            sc_new := sc_new a ++ [t]; sc_updated := sc_updated a;
            sc_tick := S (sc_tick a) |})
  ∨ (has_id t = true
     ∧ ∃ r, sc_seen a !! ticket_key t = Some r ∧ stored_rev r ≠ ticket_rev t
       ∧ check_one now_iso a t =
           {| sc_seen := <[ticket_key t :=
                            {| sr_modify_date := Some (ticket_rev t);
                               sr_first_seen := sr_first_seen r;
                               sr_last_updated := Some (now_iso (sc_tick a)) |}]>
                           (sc_seen a);
              sc_new := sc_new a; sc_updated := sc_updated a ++ [t];
              sc_tick := S (sc_tick a) |}).
Proof.
  unfold check_one, has_id. destruct (Py.truthy (ticket_key t)); simpl; [|auto].
  destruct (sc_seen a !! ticket_key t) as [r|] eqn:E; [|auto].
  destruct (decide (stored_rev r ≠ ticket_rev t)) as [Hd|Hd].
  - right. right. eauto.
  - left. split; [done|]. right. exists r. split; [done|].
    by destruct (decide (stored_rev r = ticket_rev t)).
Qed.

(** The store only grows: a key is recorded after one record exactly when
    it was recorded before or is the identifier of the record. *)
Lemma check_one_recorded (a : Scan) (t : Ticket) (k : string) :
  is_Some (sc_seen (check_one now_iso a t) !! k)
  ↔ is_Some (sc_seen a !! k) ∨ (has_id t = true ∧ ticket_key t = k).
Proof.
  destruct (check_one_cases a t) as [[-> H]|[(Hid & Hn & ->)|(Hid & r & Hr & Hd & ->)]];
    simpl.
  - split; [auto|]. intros [H'|[Hid <-]]; [done|].
    destruct H as [H|(r & -> & _)]; [congruence|eauto].
  - rewrite lookup_insert_is_Some. split.
    + intros [->|[_ H]]; auto.
    + intros [H|[_ ->]]; [|auto].
      destruct (decide (ticket_key t = k)); auto.
  - rewrite lookup_insert_is_Some. split.
    + intros [->|[_ H]]; auto.
    + intros [H|[_ ->]]; [|auto].
      destruct (decide (ticket_key t = k)); auto.
Qed.

Lemma check_loop_recorded (ts : list Ticket) (a : Scan) (k : string) :
  is_Some (sc_seen (check_loop now_iso ts a) !! k)
  ↔ is_Some (sc_seen a !! k)
    ∨ ∃ t, In t ts ∧ has_id t = true ∧ ticket_key t = k.
Proof.
  revert a. induction ts as [|t ts IH]; intros a.
  - simpl. split; [auto|]. intros [H|(t & [] & _)]. done.
  - rewrite check_loop_cons, IH, check_one_recorded. split.
    + intros [[H|[Hid Hk]]|(t' & Ht' & Hid & Hk)]; [auto| |].
      * right. exists t. split; [by left|done].
      * right. exists t'. split; [by right|done].
    + intros [H|(t' & [<-|Ht'] & Hid & Hk)]; [auto|auto|].
      right. eauto.
Qed.

(** What a run of the loop adds to the two lists and to the clock. *)
Lemma check_loop_reports (ts : list Ticket) (a : Scan) :
  ∃ nw up,
    sc_new (check_loop now_iso ts a) = (sc_new a ++ nw)%list
    ∧ sc_updated (check_loop now_iso ts a) = (sc_updated a ++ up)%list
    ∧ sc_tick (check_loop now_iso ts a) = (sc_tick a + length nw + length up)%nat
    ∧ (length nw + length up ≤ length ts)%nat
    ∧ (∀ t, In t nw → In t ts ∧ has_id t = true ∧ sc_seen a !! ticket_key t = None)
    ∧ (∀ t, In t up → In t ts ∧ has_id t = true).
Proof.
  revert a. induction ts as [|t ts IH]; intros a.
  - exists [], []. simpl. rewrite !app_nil_r. repeat split; try done; lia.
  - rewrite check_loop_cons.
    destruct (IH (check_one now_iso a t)) as (nw & up & En & Eu & Et & Hl & Hn & Hu).
    assert (∀ t', sc_seen (check_one now_iso a t) !! ticket_key t' = None →
                  sc_seen a !! ticket_key t' = None) as Hmono.
    { intros t' H. apply eq_None_not_Some. intros Hs.
      apply eq_None_not_Some in H. apply H. apply check_one_recorded. auto. }
    destruct (check_one_cases a t)
      as [[E _]|[(Hid & Hnone & E)|(Hid & r & Hr & Hd & E)]].
    + rewrite E in *. exists nw, up. repeat split; try done.
      * simpl. lia.
      * right. by apply Hn.
      * by apply Hn.
      * by apply Hn.
      * right. by apply Hu.
      * by apply Hu.
    + exists (t :: nw), up. rewrite En, Eu, Et, E. simpl.
      rewrite <- app_assoc. repeat split; try done; try lia.
      * destruct H as [<-|H]; [by left|]. right. by apply Hn.
      * destruct H as [<-|H]; [done|]. by apply Hn.
      * destruct H as [<-|H]; [done|]. apply Hmono. by apply Hn.
      * right. by apply Hu.
      * by apply Hu.
    + exists nw, (t :: up). rewrite En, Eu, Et, E. simpl.
      rewrite <- app_assoc. repeat split; try done; try lia.
      * right. by apply Hn.
      * by apply Hn.
      * apply Hmono. by apply Hn.
      * destruct H as [<-|H]; [by left|]. right. by apply Hu.
      * destruct H as [<-|H]; [done|]. by apply Hu.
Qed.

(** Records without an identifier do not take part in the loop. *)
Lemma check_loop_has_id (ts : list Ticket) (a : Scan) :
  check_loop now_iso ts a = check_loop now_iso (List.filter has_id ts) a.
Proof.
  revert a. induction ts as [|t ts IH]; intros a; [done|].
  rewrite check_loop_cons. simpl List.filter.
  destruct (has_id t) eqn:Hid.
  - rewrite check_loop_cons. apply IH.
  - rewrite <- IH. f_equal. unfold check_one. unfold has_id in Hid. by rewrite Hid.
Qed.

(** With pairwise distinct identifiers each record is classified against
    the store the run started from. *)
Lemma check_loop_classifies (ts : list Ticket) (a : Scan) :
  distinct_ids ts →
  sc_new (check_loop now_iso ts a)
    = (sc_new a ++ List.filter (is_new (sc_seen a)) ts)%list
  ∧ sc_updated (check_loop now_iso ts a)
    = (sc_updated a ++ List.filter (is_updated (sc_seen a)) ts)%list.
Proof.
  unfold distinct_ids. revert a. induction ts as [|t ts IH]; intros a Hnd.
  - simpl. by rewrite !app_nil_r.
  - rewrite check_loop_cons. simpl in Hnd.
    assert (NoDup (map ticket_key (List.filter has_id ts))) as Hnd'.
    { destruct (has_id t); [|done]. simpl in Hnd. by inversion Hnd. }
    destruct (IH (check_one now_iso a t) Hnd') as [En Eu]. rewrite En, Eu.
    assert (∀ t', In t' ts → has_id t' = true → has_id t = true →
                  ticket_key t' ≠ ticket_key t) as Hne.
    { intros t' Ht' Hid' Hid Heq. rewrite Hid in Hnd. simpl in Hnd.
      inversion Hnd as [|? ? Hnot _]; subst. apply Hnot.
      rewrite <- Heq. apply list_elem_of_In, in_map, filter_In. auto. }
    assert (∀ t', In t' ts →
              is_new (sc_seen (check_one now_iso a t)) t' = is_new (sc_seen a) t'
              ∧ is_updated (sc_seen (check_one now_iso a t)) t'
                = is_updated (sc_seen a) t') as Hsame.
    { intros t' Ht'. unfold is_new, is_updated.
      destruct (has_id t') eqn:Hid'; [|done]. simpl.
      destruct (has_id t) eqn:Hid.
      - rewrite check_one_other; [done|]. intros Heq. by apply (Hne t' Ht').
      - destruct (check_one_cases a t) as [[-> _]|[(H & _)|(H & _)]];
          [done|congruence|congruence]. }
    rewrite (filter_ext_in (is_new (sc_seen (check_one now_iso a t)))
               (is_new (sc_seen a)) ts) by (intros; by apply Hsame).
    rewrite (filter_ext_in (is_updated (sc_seen (check_one now_iso a t)))
               (is_updated (sc_seen a)) ts) by (intros; by apply Hsame).
    simpl List.filter. unfold is_new at 2, is_updated at 2.
    destruct (check_one_cases a t)
      as [[E H]|[(Hid & Hnone & E)|(Hid & r & Hr & Hd & E)]]; rewrite E; simpl.
    + destruct H as [->|(r & -> & Hr)]; [done|].
      destruct (has_id t); simpl; [|done].
      rewrite (bool_decide_eq_false_2 (stored_rev r ≠ ticket_rev t))
        by (intros H; by apply H).
      done.
    + rewrite Hid, Hnone. simpl. by rewrite <- app_assoc.
    + rewrite Hid, Hr. simpl.
      rewrite (bool_decide_eq_true_2 (stored_rev r ≠ ticket_rev t)) by done.
      by rewrite <- app_assoc.
Qed.

End DetectionMore.

Lemma detect_unfold (now_iso : nat -> string) (ts : list Ticket)
    (state : WatcherState) (tick : nat) :
  detect now_iso ts state tick =
    let a := check_loop now_iso ts
               {| sc_seen := seen_of state; sc_new := []; sc_updated := [];
                  sc_tick := tick |} in
    ({| seen_tickets := Some (sc_seen a); last_check := Some (now_iso (sc_tick a)) |},
     sc_new a, sc_updated a, S (sc_tick a)).
Proof. reflexivity. Qed.

(** X1. A detection run reports only records of the response that carry an
    identifier, each at most once per occurrence; a record reported as new
    had no entry in the state the run started from; the clock is read once
    per reported record and once more for the last-check stamp. *)
Theorem detect_reports_received_records
    (now_iso : nat -> string) (ts : list Ticket) (state : WatcherState) (tick : nat) :
  let '(state', nw, up, tick') := detect now_iso ts state tick in
  (∀ t, In t nw →
        In t ts ∧ ticket_key t ≠ "" ∧ seen_of state !! ticket_key t = None)
  ∧ (∀ t, In t up → In t ts ∧ ticket_key t ≠ "")
  ∧ (length nw + length up ≤ length ts)%nat
  ∧ tick' = S (tick + length nw + length up)
  ∧ last_check state' = Some (now_iso (tick + length nw + length up)%nat).
Proof.
  rewrite detect_unfold. cbv zeta.
  destruct (check_loop_reports now_iso ts
              {| sc_seen := seen_of state; sc_new := []; sc_updated := [];
                 sc_tick := tick |}) as (nw & up & En & Eu & Et & Hl & Hn & Hu).
  simpl in En, Eu, Et. rewrite En, Eu, Et. simpl.
  split; [|split; [|split; [done|split; done]]].
  - intros t Ht. destruct (Hn t Ht) as (? & Hid & ?).
    split; [done|]. split; [by apply truthy_nonempty|done].
  - intros t Ht. destruct (Hu t Ht) as (? & Hid).
    split; [done|]. by apply truthy_nonempty.
Qed.

(** X2. Records are never deleted: after a detection run an identifier is
    recorded exactly when it was recorded before or a record of the
    response carries it, and whatever is recorded stays recorded through
    any number of cycles. *)
Theorem records_are_never_deleted
    (now_iso : nat -> string) (ts : list Ticket) (responses : list (list Ticket))
    (state : WatcherState) (tick : nat) (k : string) :
  (is_Some (seen_of (detect now_iso ts state tick).1.1.1 !! k)
   ↔ is_Some (seen_of state !! k)
     ∨ ∃ t, In t ts ∧ ticket_key t = k ∧ k ≠ "")
  ∧ (is_Some (seen_of state !! k) →
     is_Some (seen_of (run_cycles now_iso responses state tick).1 !! k)).
Proof.
  split.
  - rewrite seen_of_detect, check_loop_recorded. simpl.
    split; (intros [H|(t & Ht & H1 & H2)]; [by left|right; exists t]).
    + subst k. split; [done|]. split; [done|]. by apply truthy_nonempty.
    + subst k. split; [done|]. split; [|done]. by apply truthy_nonempty.
  - revert state tick. induction responses as [|r rest IH]; intros state tick H;
      [done|].
    rewrite run_cycles_cons. apply IH. rewrite seen_of_detect.
    apply check_loop_recorded. by left.
Qed.

Lemma records_are_never_deleted_witness :
  is_Some (seen_of (run_cycles sample_clock
                      [[sample_ticket 2 7]; []; [sample_ticket 3 9]]
                      sample_state 0).1 !! "1").
Proof.
  apply (records_are_never_deleted sample_clock []
           [[sample_ticket 2 7]; []; [sample_ticket 3 9]] sample_state 0 "1").
  vm_compute. eauto.
Defined.

(** X3. When the identifiers of a response are pairwise distinct, the run
    classifies every record against the state it started from: new are the
    identified records without an entry, updated the identified records
    whose entry holds another revision, in the order of the response. *)
Theorem detect_classifies_distinct_ids
    (now_iso : nat -> string) (ts : list Ticket) (state : WatcherState) (tick : nat) :
  distinct_ids ts →
  (detect now_iso ts state tick).1.1.2 = List.filter (is_new (seen_of state)) ts
  ∧ (detect now_iso ts state tick).1.2 = List.filter (is_updated (seen_of state)) ts.
Proof.
  intros Hd. rewrite detect_unfold. cbv zeta. simpl.
  by destruct (check_loop_classifies now_iso ts
                 {| sc_seen := seen_of state; sc_new := []; sc_updated := [];
                    sc_tick := tick |} Hd) as [-> ->].
Qed.

Lemma detect_classifies_distinct_ids_witness :
  (detect sample_clock [sample_ticket 2 7; sample_ticket 1 150; sample_ticket 3 9]
          sample_state 0).1.1.2 = [sample_ticket 2 7; sample_ticket 3 9]
  ∧ (detect sample_clock [sample_ticket 2 7; sample_ticket 1 150; sample_ticket 3 9]
            sample_state 0).1.2 = [sample_ticket 1 150].
Proof.
  destruct (detect_classifies_distinct_ids sample_clock
              [sample_ticket 2 7; sample_ticket 1 150; sample_ticket 3 9]
              sample_state 0) as [-> ->].
  - unfold distinct_ids.
    apply (bool_decide_unpack
             (NoDup (map ticket_key
                       (List.filter has_id
                          [sample_ticket 2 7; sample_ticket 1 150; sample_ticket 3 9])))).
    vm_compute. exact I.
  - split; vm_compute; reflexivity.
Defined.

(** X4. A record with a missing or empty identifier is neither reported
    nor recorded: the run is the run over the identified records alone. *)
Theorem detect_skips_records_without_id
    (now_iso : nat -> string) (ts : list Ticket) (state : WatcherState) (tick : nat) :
  detect now_iso ts state tick = detect now_iso (List.filter has_id ts) state tick.
Proof. rewrite !detect_unfold. by rewrite <- check_loop_has_id. Qed.

(** ** Classifier: what the filters read *)

Lemma lower_idem (s : string) : Py.lower (Py.lower s) = Py.lower s.
Proof.
  induction s as [|c s IH]; [done|]. simpl. by rewrite lower_ascii_idem, IH.
Qed.

Lemma take_lower (n : nat) (s : string) :
  Py.take n (Py.lower s) = Py.lower (Py.take n s).
Proof.
  revert s. induction n as [|n IH]; intros [|c s]; simpl; try done. by rewrite IH.
Qed.

Lemma take_take_same (n : nat) (s : string) :
  Py.take n (Py.take n s) = Py.take n s.
Proof.
  revert s. induction n as [|n IH]; intros [|c s]; simpl; try done. by rewrite IH.
Qed.

Lemma length_take_le (n : nat) (s : string) :
  (String.length (Py.take n s) ≤ n)%nat.
Proof.
  revert s. induction n as [|n IH]; intros [|c s]; simpl; try lia.
  specialize (IH s). lia.
Qed.

Lemma or_empty_default (o : option string) :
  default "" (Py.or_else o (Some "")) = default "" o.
Proof. by destruct o as [[|c s]|]. Qed.

(** X5. The skip filter reads the subject and the sender only, and reads
    them without regard to letter case: two tickets whose subjects and
    senders agree after case folding get the same decision and reason,
    whatever their company, priority, status, identifier or revision. *)
Theorem skip_filter_reads_folded_subject_and_sender (t1 t2 : Ticket) :
  Py.lower (default "" (t_subject t1)) = Py.lower (default "" (t_subject t2)) →
  Py.lower (default "" (t_email t1)) = Py.lower (default "" (t_email t2)) →
  should_skip_ticket t1 = should_skip_ticket t2.
Proof.
  intros Hs He. unfold should_skip_ticket. rewrite !or_empty_default.
  by rewrite Hs, He.
Qed.

Lemma skip_filter_reads_folded_subject_and_sender_witness :
  should_skip_ticket
    (mkTicket (Some (PInt 7)) (Some "VH-7") (Some "SYSTEM ALERT: disk")
       (Some "Acme") (Some "Ops@Acme.Example") (Some "Low") None None)
  = should_skip_ticket
      (mkTicket None None (Some "system alert: disk") None
         (Some "ops@acme.example") None None None).
Proof.
  apply skip_filter_reads_folded_subject_and_sender; vm_compute; reflexivity.
Defined.

(** X6. The fallback reads at most the first 500 characters of the body,
    reads them without regard to letter case, and does not read the ticket
    dict at all. *)
Theorem fallback_reads_folded_body_prefix
    (t1 t2 : Ticket) (subject content reason : string) :
  generate_fallback_triage t1 subject content reason
  = generate_fallback_triage t2 subject (Py.lower (Py.take 500 content)) reason.
Proof.
  unfold generate_fallback_triage.
  by rewrite lower_idem, <- !take_lower, take_take_same.
Qed.

(** ** Body text handed to the reasoner *)

Lemma all_chars_take (p : ascii -> bool) (n : nat) (s : string) :
  all_chars p s = true → all_chars p (Py.take n s) = true.
Proof.
  revert s. induction n as [|n IH]; intros [|c s]; simpl; try done.
  intros [Hc Hs]%andb_true_iff. rewrite Hc. by apply IH.
Qed.

Lemma all_chars_lstrip (p q : ascii -> bool) (s : string) :
  all_chars p s = true → all_chars p (Py.lstrip_by q s) = true.
Proof.
  induction s as [|c s IH]; simpl; [done|].
  intros H. destruct (q c); [|done].
  apply andb_true_iff in H as [_ H]. by apply IH.
Qed.

Lemma all_chars_rstrip (p q : ascii -> bool) (s : string) :
  all_chars p s = true → all_chars p (Py.rstrip_by q s) = true.
Proof.
  induction s as [|c s IH]; simpl; [done|].
  intros [Hc Hs]%andb_true_iff. specialize (IH Hs).
  destruct (Py.rstrip_by q s) as [|c' r].
  - destruct (q c); simpl; [done|]. by rewrite Hc.
  - change (all_chars p (String c (String c' r)))
      with (p c && all_chars p (String c' r)).
    by rewrite Hc, IH.
Qed.

Lemma collapse_ws_from_blank_or_ink (b : bool) (s : string) :
  all_chars blank_or_ink (collapse_ws_from b s) = true.
Proof.
  revert b. induction s as [|c s IH]; intros b; simpl; [done|].
  destruct (Py.is_space c) eqn:Hc.
  - destruct b; [apply IH|]. cbn [all_chars]. by rewrite IH.
  - cbn [all_chars]. unfold blank_or_ink at 1. by rewrite Hc, IH.
Qed.

Lemma collapse_ws_from_idem (b : bool) (s : string) :
  collapse_ws_from b (collapse_ws_from b s) = collapse_ws_from b s.
Proof.
  revert b. induction s as [|c s IH]; intros b; simpl; [done|].
  destruct (Py.is_space c) eqn:Hc.
  - destruct b; [apply IH|].
    cbn [collapse_ws_from].
    change (Py.is_space " ") with true. cbv iota. by rewrite IH.
  - cbn [collapse_ws_from]. rewrite Hc. rewrite IH. by destruct b.
Qed.

(** X7. The body text handed to the reasoner and to the fallback is at
    most 2000 characters long and its only white space is the blank: line
    breaks and tabs of the ticket body never reach the prompt. *)
Theorem clean_content_is_bounded_one_line (content : string) :
  (String.length (clean_content content) ≤ 2000)%nat
  ∧ all_chars blank_or_ink (clean_content content) = true.
Proof.
  unfold clean_content. split; [apply length_take_le|].
  apply all_chars_take. unfold Py.strip, Py.strip_by.
  apply all_chars_rstrip, all_chars_lstrip. apply collapse_ws_from_blank_or_ink.
Qed.

(** X8. Collapsing white space is idempotent: text whose runs of white
    space have been collapsed to single blanks is left as it is. *)
Theorem collapse_ws_is_idempotent (s : string) :
  collapse_ws (collapse_ws s) = collapse_ws s.
Proof. apply collapse_ws_from_idem. Qed.

Lemma strip_tags_plain_prefix (pre s : string) :
  lacks "<" pre = true →
  strip_tags_from None (pre ++ s) = pre ++ strip_tags_from None s.
Proof.
  induction pre as [|c pre IH]; [done|].
  intros [Hc Hpre]%lacks_cons. rewrite !append_cons. cbn [strip_tags_from].
  apply (proj2 (Ascii.eqb_neq _ _)) in Hc. rewrite Hc. by rewrite IH.
Qed.

Lemma strip_tags_inside (buf body post : string) :
  lacks ">" body = true →
  strip_tags_from (Some buf) (body ++ String ">" post) =
    match buf ++ body with
    | EmptyString => String "<" (String ">" (strip_tags post))
    | String _ _ => String " " (strip_tags post)
    end.
Proof.
  revert buf. induction body as [|c body IH]; intros buf.
  - intros _. change ("" ++ String ">" post) with (String ">" post).
    cbn [strip_tags_from]. rewrite Ascii.eqb_refl. by rewrite append_empty_r.
  - intros [Hc Hbody]%lacks_cons. rewrite append_cons. cbn [strip_tags_from].
    apply (proj2 (Ascii.eqb_neq _ _)) in Hc. rewrite Hc. rewrite IH by done.
    by rewrite append_snoc.
Qed.

Lemma strip_tags_unclosed (buf rest : string) :
  lacks ">" rest = true →
  strip_tags_from (Some buf) rest = String "<" (buf ++ rest).
Proof.
  revert buf. induction rest as [|c rest IH]; intros buf.
  - intros _. cbn [strip_tags_from]. by rewrite append_empty_r.
  - intros [Hc Hrest]%lacks_cons. cbn [strip_tags_from].
    apply (proj2 (Ascii.eqb_neq _ _)) in Hc. rewrite Hc. rewrite IH by done.
    by rewrite append_snoc.
Qed.

(** X9. Tag stripping.  Text without an opening bracket is left as it is;
    the first tag (an opening bracket, at least one character other than
    the closing bracket, a closing bracket) is replaced by one blank and
    stripping goes on behind it; an opening bracket that is never closed
    is kept with everything after it. *)
Theorem strip_tags_replaces_tags (pre body post : string) :
  lacks "<" pre = true → lacks ">" body = true →
  strip_tags pre = pre
  ∧ (body ≠ "" →
     strip_tags (pre ++ String "<" (body ++ String ">" post))
     = pre ++ String " " (strip_tags post))
  ∧ strip_tags (pre ++ String "<" body) = pre ++ String "<" body.
Proof.
  intros Hpre Hbody. unfold strip_tags. split; [|split].
  - pose proof (strip_tags_plain_prefix pre "" Hpre) as H.
    cbn [strip_tags_from] in H. by rewrite !append_empty_r in H.
  - intros Hne. rewrite strip_tags_plain_prefix by done. f_equal.
    cbn [strip_tags_from]. rewrite Ascii.eqb_refl.
    rewrite strip_tags_inside by done.
    destruct body; [done|done].
  - rewrite strip_tags_plain_prefix by done. f_equal.
    cbn [strip_tags_from]. rewrite Ascii.eqb_refl.
    by rewrite strip_tags_unclosed.
Qed.

Lemma strip_tags_replaces_tags_witness :
  strip_tags "Hello team" = "Hello team"
  ∧ strip_tags ("Hello team" ++ String "<" ("br /" ++ String ">" "<b>phone</b> is down"))
    = "Hello team" ++ String " " (strip_tags "<b>phone</b> is down")
  ∧ strip_tags ("Hello team" ++ String "<" "br /") = "Hello team" ++ String "<" "br /".
Proof.
  destruct (strip_tags_replaces_tags "Hello team" "br /" "<b>phone</b> is down")
    as (H1 & H2 & H3); [vm_compute; reflexivity|vm_compute; reflexivity|].
  split; [exact H1|]. split; [apply H2; discriminate|exact H3].
Defined.

(** ** Credential lines *)

Lemma split_once_first (key value : string) :
  lacks "=" key = true →
  Py.split_once "=" (key ++ String "=" value) = Some (key, value).
Proof.
  induction key as [|c key IH].
  - intros _. change ("" ++ String "=" value) with (String "=" value).
    cbn [Py.split_once]. by rewrite Ascii.eqb_refl.
  - intros [Hc Hkey]%lacks_cons. rewrite append_cons. cbn [Py.split_once].
    apply (proj2 (Ascii.eqb_neq _ _)) in Hc. rewrite Hc.
    by rewrite IH.
Qed.

Lemma contains_separator (key value : string) :
  Py.contains "=" (key ++ String "=" value) = true.
Proof.
  induction key as [|c key IH].
  - change ("" ++ String "=" value) with (String "=" value).
    cbn [Py.contains Py.startswith]. by rewrite Ascii.eqb_refl.
  - rewrite append_cons. cbn [Py.contains]. rewrite IH. apply orb_true_r.
Qed.

(** X10. A secret line is split at its first equals sign only: the key is
    the text before it and the value everything after it, equals signs
    included, both trimmed and the value unquoted; a later line for the
    same key replaces the earlier value. *)
Theorem secret_line_splits_at_first_equals
    (creds : gmap string string) (key value value' : string) :
  lacks "=" key = true →
  Py.startswith "#" (Py.strip (key ++ String "=" value)) = false →
  Py.startswith "#" (Py.strip (key ++ String "=" value')) = false →
  parse_line creds (key ++ String "=" value)
    = <[Py.strip key := Py.strip_quote (Py.strip value)]> creds
  ∧ parse_line (parse_line creds (key ++ String "=" value)) (key ++ String "=" value')
    = <[Py.strip key := Py.strip_quote (Py.strip value')]> creds.
Proof.
  intros Hkey Hc Hc'.
  assert (∀ c v, Py.startswith "#" (Py.strip (key ++ String "=" v)) = false →
            parse_line c (key ++ String "=" v)
            = <[Py.strip key := Py.strip_quote (Py.strip v)]> c) as Hline.
  { intros c v H. unfold parse_line.
    by rewrite contains_separator, H, split_once_first. }
  split; [by apply Hline|].
  rewrite !Hline by done. apply insert_insert_eq.
Qed.

Lemma secret_line_splits_at_first_equals_witness :
  parse_line ∅ (" token " ++ String "=" " YWJjZA== ")
    = <[Py.strip " token " := Py.strip_quote (Py.strip " YWJjZA== ")]> ∅
  ∧ Py.strip_quote (Py.strip " YWJjZA== ") = "YWJjZA==".
Proof.
  split; [|vm_compute; reflexivity].
  apply (secret_line_splits_at_first_equals ∅ " token " " YWJjZA== " "other");
    vm_compute; reflexivity.
Defined.

(** ** Ticketing API *)

Lemma try_paths_cases (w : World) (profile : string) (paths : list string)
    (s : RunState) :
  ∃ r evs, try_paths w profile paths s
           = (r, {| rs_tick := rs_tick s + length evs;
                    rs_trace := rs_trace s ++ evs; rs_fs := rs_fs s |})
           ∧ forallb is_pass evs = true
           ∧ ∀ c, r = Ok c → c_token c ≠ "".
Proof.
  revert s. induction paths as [|path rest IH]; intros s.
  - eexists _, []. cbn [try_paths]. unfold raise. cbn [length].
    rewrite Nat.add_0_r, app_nil_r. by destruct s.
  - rewrite try_paths_step. cbv zeta.
    set (s1 := {| rs_tick := S (rs_tick s);
                  rs_trace := rs_trace s ++ [PassCall path]; rs_fs := rs_fs s |}).
    assert (∀ r evs,
              try_paths w profile rest s1
              = (r, {| rs_tick := rs_tick s1 + length evs;
                       rs_trace := rs_trace s1 ++ evs; rs_fs := rs_fs s1 |}) →
              try_paths w profile rest s1
              = (r, {| rs_tick := rs_tick s + length (PassCall path :: evs);
                       rs_trace := rs_trace s ++ PassCall path :: evs;
                       rs_fs := rs_fs s |})) as Hshift.
    { intros r evs ->. subst s1. cbn [rs_tick rs_trace rs_fs length].
      rewrite <- app_assoc. cbn [app]. by rewrite Nat.add_succ_r. }
    assert (s1 = {| rs_tick := rs_tick s + length [PassCall path];
                    rs_trace := rs_trace s ++ [PassCall path];
                    rs_fs := rs_fs s |}) as Hone.
    { subst s1. cbn [length]. by rewrite Nat.add_1_r. }
    destruct (IH s1) as (r & evs & E & P & T).
    destruct (w_pass w (rs_tick s) path) as [out|msg|msg] eqn:Ew.
    + destruct (creds_of (PassOutput out)) as [c|] eqn:Ec.
      * exists (Ok c), [PassCall path]. rewrite Hone. split; [done|].
        split; [done|]. intros c' [= <-]. by apply (creds_of_token _ _ Ec).
      * exists r, (PassCall path :: evs). by rewrite (Hshift r evs E).
    + cbn [creds_of]. exists r, (PassCall path :: evs).
      by rewrite (Hshift r evs E).
    + eexists _, [PassCall path]. rewrite Hone. by repeat split.
Qed.

Lemma pass_events_no_http (evs : list event) :
  forallb is_pass evs = true → count_ev is_http evs = 0.
Proof.
  induction evs as [|e evs IH]; [done|]. simpl.
  intros [He Hevs]%andb_true_iff. destruct e; try done. by apply IH.
Qed.

Lemma dict_get_set (k k' : string) (v : pyval) (d : list (string * pyval)) :
  dict_get k (dict_set d k' v) = if String.eqb k' k then Some v else dict_get k d.
Proof.
  induction d as [|[k0 v0] d IH]; cbn [dict_set dict_get]; [done|].
  destruct (String.eqb k0 k') eqn:E0; cbn [dict_get].
  - apply String.eqb_eq in E0. subst k0. by destruct (String.eqb k' k).
  - rewrite IH. destruct (String.eqb k0 k) eqn:E1; [|done].
    destruct (String.eqb k' k) eqn:E2; [|done].
    apply String.eqb_eq in E1, E2. subst. by rewrite String.eqb_refl in E0.
Qed.

Lemma dict_get_app (k : string) (a b : list (string * pyval)) :
  dict_get k (a ++ b)%list
  = match dict_get k a with Some v => Some v | None => dict_get k b end.
Proof.
  induction a as [|[k0 v0] a IH]; [done|]. cbn [app dict_get].
  by destruct (String.eqb k0 k).
Qed.

Lemma dict_get_update (k : string) (params d : list (string * pyval)) :
  dict_get k (dict_update d params)
  = match dict_get k (rev params) with
    | Some v => Some v
    | None => dict_get k d
    end.
Proof.
  unfold dict_update. revert d.
  induction params as [|[k' v] ps IH]; intros d; [done|].
  cbn [fold_left rev fst snd]. rewrite IH, dict_get_app, dict_get_set.
  cbn [dict_get]. destruct (dict_get k (rev ps)); [done|].
  by destruct (String.eqb k' k).
Qed.

Lemma dict_set_fresh (d : list (string * pyval)) (k : string) (v : pyval) :
  k ∉ map fst d → dict_set d k v = (d ++ [(k, v)])%list.
Proof.
  induction d as [|[k0 v0] d IH]; [done|]. cbn [map fst dict_set app].
  intros [Hne Hin]%not_elem_of_cons.
  assert (String.eqb k0 k = false) as -> by (apply String.eqb_neq; congruence).
  by rewrite IH.
Qed.

Lemma dict_update_fresh (d params : list (string * pyval)) :
  NoDup (map fst (d ++ params)%list) → dict_update d params = (d ++ params)%list.
Proof.
  unfold dict_update. revert d.
  induction params as [|[k v] ps IH]; intros d Hnd.
  - by rewrite app_nil_r.
  - cbn [fold_left fst snd].
    rewrite map_app in Hnd. cbn [map fst] in Hnd.
    apply NoDup_app in Hnd as (Hd & Hdisj & Hps).
    rewrite dict_set_fresh.
    + rewrite IH; [by rewrite <- app_assoc|].
      rewrite <- app_assoc. cbn [app]. rewrite map_app. cbn [map fst].
      apply NoDup_app. repeat split; [done|exact Hdisj|exact Hps].
    + intros Hin. apply (Hdisj k Hin). apply elem_of_cons. by left.
Qed.

(** X11. An API request resolves the credentials first.  Without
    credentials it raises their error and sends nothing over HTTP; with
    them it sends one GET to the resolved URL and raises when the transport
    or the status fails.  The parameters of the request are one dict: the
    (non-empty) token, the ticket module, the operation and the JSON
    encoding, updated with the caller's parameters, so that a key is sent
    with the caller's last value for it and otherwise with the fixed one;
    when the caller's keys are pairwise distinct and none of the four fixed
    keys, the fixed parameters come first and the caller's follow in
    order. *)
Theorem api_request_needs_credentials
    (w : World) (operation : string) (params : list (string * pyval))
    (profile : string) (s : RunState) :
  match get_credentials w profile s with
  | (Raise e, s1) =>
      api_request w operation params profile s = (Raise e, s1)
      ∧ count_ev is_http (rs_trace s1) = count_ev is_http (rs_trace s)
  | (Ok c, s1) =>
      let request_params :=
        dict_update (request_head (c_token c) operation) params in
      c_token c ≠ ""
      ∧ api_request w operation params profile s
        = (match w_http_get w (rs_tick s1) (c_url c) request_params with
           | HttpJson j => Ok j
           | HttpFailed msg => Raise (RequestException msg)
           end,
           {| rs_tick := S (rs_tick s1);
              rs_trace := rs_trace s1 ++ [HttpGet (c_url c) request_params];
              rs_fs := rs_fs s1 |})
      ∧ (∀ k, dict_get k request_params
              = match dict_get k (rev params) with
                | Some v => Some v
                | None => dict_get k (request_head (c_token c) operation)
                end)
      ∧ (NoDup (map fst (request_head (c_token c) operation ++ params)%list) →
         request_params = (request_head (c_token c) operation ++ params)%list)
  end.
Proof.
  unfold get_credentials.
  destruct (try_paths_cases w profile
              ["vision/" ++ profile; profile ++ "/visionhelpdesk/env"] s)
    as (r & evs & E & Hp & Ht).
  rewrite E.
  destruct r as [c|e]; unfold api_request, get_credentials; unfold bind at 1;
    rewrite E.
  - cbv zeta. split; [by apply Ht|]. split; [|split].
    + unfold bind, emit, ask, request_head. cbn [rs_tick rs_trace rs_fs].
      match goal with |- context [w_http_get w ?n ?u ?p] =>
        by destruct (w_http_get w n u p) end.
    + intros k. apply dict_get_update.
    + apply dict_update_fresh.
  - split; [reflexivity|]. cbn [rs_trace]. rewrite count_ev_app.
    rewrite (pass_events_no_http evs Hp). lia.
Qed.

Lemma api_request_needs_credentials_witness :
  rs_trace (api_request world20 "ticket_details"
              [("vis_operation", PStr "other"); ("vis_ticket_id", PInt 101)]
              "20859" (fresh 0 home_fs)).2
  = [PassCall "vision/20859";
     HttpGet "https://clients.sipcapturer.com/api/index.php"
       [ ("vis_txttoken", PStr "abc123"); ("vis_module", PStr "ticket");
         ("vis_operation", PStr "other"); ("vis_encode", PStr "json");
         ("vis_ticket_id", PInt 101) ]].
Proof.
  pose proof (api_request_needs_credentials world20 "ticket_details"
                [("vis_operation", PStr "other"); ("vis_ticket_id", PInt 101)]
                "20859" (fresh 0 home_fs)) as H.
  assert (get_credentials world20 "20859" (fresh 0 home_fs)
          = (Ok {| c_token := "abc123";
                   c_url := "https://clients.sipcapturer.com/api/index.php" |},
             {| rs_tick := 1; rs_trace := [PassCall "vision/20859"];
                rs_fs := home_fs |})) as E by reflexivity.
  rewrite E in H. destruct H as (_ & -> & _). reflexivity.
Defined.

(** X12. Fetching ticket details never raises: whatever goes wrong in the
    credential lookup or in the request, the result is the empty dict, so
    that triage goes on with an empty body; a successful answer is passed
    on as it is.  The file system is not touched. *)
Theorem get_ticket_details_degrades_to_empty
    (w : World) (ticket_id : pyval) (profile : string) (s : RunState) :
  match api_request w "ticket_details" [("vis_ticket_id", ticket_id)] profile s with
  | (Ok j, s1) => get_ticket_details w ticket_id profile s = (Ok j, s1)
  | (Raise e, s1) =>
      get_ticket_details w ticket_id profile s
      = (Ok {| j_data := None; j_content := None |}, s1)
  end
  ∧ rs_fs (get_ticket_details w ticket_id profile s).2 = rs_fs s.
Proof.
  unfold get_ticket_details, try_except.
  destruct (api_request_attempts w "ticket_details" [("vis_ticket_id", ticket_id)]
              profile s) as (r & s1 & evs & E & F & T & P & N).
  rewrite E. destruct r as [j|e]; [done|].
  destruct e; try done. by destruct (N code).
Qed.

(** ** Triage cycle *)



Lemma fallback_nonempty (ticket : Ticket) (subject content reason : string) :
  generate_fallback_triage ticket subject content reason ≠ "".
Proof.
  unfold generate_fallback_triage. cbv zeta.
  repeat match goal with
         | |- context [if ?b then _ else _] => destruct b
         end; discriminate.
Qed.

(** X14. Whenever the reasoner step returns, it has asked the reasoner
    exactly once, with the prompt built from the ticket and from the body
    of the details with tags removed, white space collapsed and the text
    cut at 2000 characters, and the text it returns is never empty: it is
    the trimmed answer of the reasoner when that exits with status 0 and
    says something, and in every other case (other status, blank answer,
    timeout, failure to start) the fallback verdict computed from the
    ticket, its subject and that same body. *)
Theorem triage_text_is_answer_or_fallback
    (w : World) (ticket : Ticket) (details : api_json) (s s' : RunState)
    (summary : string) :
  triage_with_claude w ticket details s = (Ok summary, s') →
  let subject := default "No subject" (t_subject ticket) in
  let company :=
    if Py.truthy (default "Unknown" (t_company_name ticket))
    then default "Unknown" (t_company_name ticket) else "Unknown" in
  let body := clean_content (default "" (j_content details)) in
  let prompt :=
    triage_prompt (default "?" (t_ticket_hash ticket)) subject company
      (default "?" (t_priority ticket)) (default "" (t_email ticket)) body in
  s' = {| rs_tick := S (rs_tick s);
          rs_trace := rs_trace s ++ [ClaudeCall prompt];
          rs_fs := rs_fs s |}
  ∧ summary ≠ ""
  ∧ summary
    = match w_claude w (rs_tick s) prompt with
      | ClaudeExited returncode stdout =>
          if (returncode =? 0)%Z && Py.truthy (Py.strip stdout)
          then Py.strip stdout
          else generate_fallback_triage ticket subject body ""
      | ClaudeTimeout => generate_fallback_triage ticket subject body "timeout"
      | ClaudeError msg =>
          generate_fallback_triage ticket subject body (Py.take 50 msg)
      end.
Proof.
  cbv zeta. unfold triage_with_claude. cbv zeta.
  match goal with |- context [ClaudeCall ?p] => set (prompt := p) end.
  unfold bind, emit, ask. cbn [rs_tick rs_trace rs_fs].
  destruct (w_claude w (rs_tick s) prompt) as [rc out| |msg] eqn:E.
  - destruct ((rc =? 0)%Z && Py.truthy (Py.strip out)) eqn:Eok;
      unfold ret; intros [= <- <-]; (split; [done|]); (split; [|done]).
    + apply andb_true_iff in Eok as [_ Ht]. by apply truthy_nonempty.
    + apply fallback_nonempty.
  - unfold ret. intros [= <- <-]. split; [done|].
    split; [apply fallback_nonempty|done].
  - unfold ret. intros [= <- <-]. split; [done|].
    split; [apply fallback_nonempty|done].
Qed.

Lemma triage_text_is_answer_or_fallback_witness :
  (triage_with_claude world20 (ticket_no 101)
     {| j_data := None; j_content := Some "<p>Our phone does not ring</p>" |}
     (fresh 0 home_fs)).1
  ≠ Ok "".
Proof.
  destruct (triage_with_claude world20 (ticket_no 101)
              {| j_data := None; j_content := Some "<p>Our phone does not ring</p>" |}
              (fresh 0 home_fs)) as [[summary|e] s'] eqn:E; [|done].
  destruct (triage_text_is_answer_or_fallback world20 (ticket_no 101) _ _ _ _ E)
    as (_ & Hne & _).
  cbn [fst]. congruence.
Defined.

(** ** Alert router *)




Lemma post_triage_to_slack_run
    (w : World) (channel bot_token : string) (ticket : Ticket) (summary : string)
    (s : RunState) :
  ∃ payload line,
    post_triage_to_slack w channel ticket summary bot_token s
    = (Ok tt, {| rs_tick := S (S (rs_tick s));
                 rs_trace := rs_trace s ++ [SlackPost bot_token payload; line];
                 rs_fs := rs_fs s |})
    ∧ sp_channel payload = channel
    ∧ sp_section payload = Py.take 2900 summary
    ∧ (String.length (sp_section payload) ≤ 2900)%nat
    ∧ is_slack line = false ∧ is_webhook line = false.
Proof.
  unfold post_triage_to_slack. cbv zeta. unfold bind, ask, emit.
  cbn [rs_tick rs_trace rs_fs].
  match goal with |- context [w_slack w ?n ?t ?p] =>
    set (payload := p); destruct (w_slack w n t payload) as [|err|msg] end;
    unfold print, eprint, emit; cbn [rs_tick rs_trace rs_fs];
    eexists payload, _; (split; [by rewrite <- app_assoc|]);
    subst payload; cbn [sp_channel sp_section em_description];
    repeat split; try reflexivity; apply length_take_le.
Qed.

Lemma post_triage_to_discord_run
    (w : World) (webhook_url : string) (ticket : Ticket) (summary : string)
    (s : RunState) :
  ∃ payload line,
    post_triage_to_discord w webhook_url ticket summary s
    = (Ok tt, {| rs_tick := S (S (rs_tick s));
                 rs_trace := rs_trace s ++ [WebhookPost webhook_url payload; line];
                 rs_fs := rs_fs s |})
    ∧ em_description payload = Some (Py.take 2000 summary)
    ∧ (String.length (Py.take 2000 summary) ≤ 2000)%nat
    ∧ is_slack line = false ∧ is_webhook line = false.
Proof.
  unfold post_triage_to_discord. cbv zeta. unfold bind, ask, emit.
  cbn [rs_tick rs_trace rs_fs].
  match goal with |- context [w_webhook w ?n ?u ?p] =>
    set (payload := p); destruct (w_webhook w n u payload) as [|msg] end;
    unfold print, eprint, emit; cbn [rs_tick rs_trace rs_fs];
    eexists payload, _; (split; [by rewrite <- app_assoc|]);
    subst payload; cbn [sp_channel sp_section em_description];
    repeat split; try reflexivity; apply length_take_le.
Qed.

(** X16. Whenever the posting of a verdict returns, it has sent exactly
    one request: to the channel with a section text cut at 2900
    characters, or to the webhook with a description cut at 2000
    characters, followed by one line, a confirmation or an error; nothing
    else has happened. *)
Theorem verdict_posts_are_cut
    (w : World) (channel bot_token webhook_url : string) (ticket : Ticket)
    (summary : string) (s s' : RunState) :
  (post_triage_to_slack w channel ticket summary bot_token s = (Ok tt, s') →
   ∃ payload line,
     s' = {| rs_tick := S (S (rs_tick s));
             rs_trace := rs_trace s ++ [SlackPost bot_token payload; line];
             rs_fs := rs_fs s |}
     ∧ sp_channel payload = channel
     ∧ sp_section payload = Py.take 2900 summary
     ∧ (String.length (sp_section payload) ≤ 2900)%nat
     ∧ is_slack line = false ∧ is_webhook line = false)
  ∧ (post_triage_to_discord w webhook_url ticket summary s = (Ok tt, s') →
     ∃ payload line,
       s' = {| rs_tick := S (S (rs_tick s));
               rs_trace := rs_trace s ++ [WebhookPost webhook_url payload; line];
               rs_fs := rs_fs s |}
       ∧ em_description payload = Some (Py.take 2000 summary)
       ∧ (String.length (Py.take 2000 summary) ≤ 2000)%nat
       ∧ is_slack line = false ∧ is_webhook line = false).
Proof.
  split; intros H.
  - destruct (post_triage_to_slack_run w channel bot_token ticket summary s)
      as (payload & line & E & Hrest).
    rewrite E in H. injection H as <-. by exists payload, line.
  - destruct (post_triage_to_discord_run w webhook_url ticket summary s)
      as (payload & line & E & Hrest).
    rewrite E in H. injection H as <-. by exists payload, line.
Qed.

Lemma verdict_posts_are_cut_witness :
  ∃ payload line,
    rs_trace (post_triage_to_slack world_flaky "support" (ticket_no 101)
                "**Summary:** phone does not ring" "xoxb-1" (fresh 0 home_fs)).2
    = [SlackPost "xoxb-1" payload; line]
    ∧ sp_section payload = "**Summary:** phone does not ring".
Proof.
  destruct (proj1 (verdict_posts_are_cut world_flaky "support" "xoxb-1"
                     "https://discord.example/hook" (ticket_no 101)
                     "**Summary:** phone does not ring" (fresh 0 home_fs)
                     (post_triage_to_slack world_flaky "support" (ticket_no 101)
                        "**Summary:** phone does not ring" "xoxb-1"
                        (fresh 0 home_fs)).2))
    as (payload & line & E & _ & Hsec & _).
  - vm_compute. reflexivity.
  - exists payload, line. by rewrite E.
Defined.

(** ** Run controller: what a cycle prints and sends *)

(** X17. With [--json] a successful cycle saves the state, prints one JSON
    document with the (possibly filtered) new and updated lists, and ends
    with status 0; it asks for no verdict and posts nothing, whatever
    triage and destination options are given. *)
Theorem json_cycle_only_prints_the_document
    (w : World) (args : Args) (s s1 : RunState)
    (st : WatcherState) (nw up : list Ticket) :
  check_tickets w (a_profile args)
    (loaded_state (rs_fs s) (state_file_of w args)) (a_hours args) s
    = (Ok (st, nw, up), s1) →
  writable (rs_fs s) (state_file_of w args) = true →
  a_json args = true →
  main w args s
  = (Exited 0,
     {| rs_tick := S (rs_tick s1);
        rs_trace := rs_trace s1
                    ++ [StdoutJson (reported args nw) (reported args up)
                          (w_now_iso w (rs_tick s1))];
        rs_fs := fs_write (rs_fs s) (state_file_of w args) (JsonState st) |}).
Proof.
  intros E W J. rewrite (main_after_save w args s s1 st nw up E W).
  unfold main_report. rewrite J. reflexivity.
Qed.

Lemma json_cycle_only_prints_the_document_witness :
  ∃ s', main world20 args_json (fresh 0 home_fs) = (Exited 0, s')
        ∧ count_ev is_claude (rs_trace s') = 0
        ∧ count_ev is_slack (rs_trace s') = 0
        ∧ count_ev is_webhook (rs_trace s') = 0.
Proof.
  eexists. split.
  - eapply (json_cycle_only_prints_the_document world20 args_json (fresh 0 home_fs)).
    + vm_compute. reflexivity.
    + vm_compute. reflexivity.
    + reflexivity.
  - vm_compute. repeat split; reflexivity.
Defined.

(** X18. With [--quiet], without [--json], without a triage to run and
    without a webhook, a successful cycle adds nothing to any output: it
    saves the state and ends with status 0, also when new tickets were
    found. *)
Theorem quiet_cycle_is_silent
    (w : World) (args : Args) (s s1 : RunState)
    (st : WatcherState) (nw up : list Ticket) :
  check_tickets w (a_profile args)
    (loaded_state (rs_fs s) (state_file_of w args)) (a_hours args) s
    = (Ok (st, nw, up), s1) →
  writable (rs_fs s) (state_file_of w args) = true →
  a_json args = false → a_quiet args = true →
  a_triage args && is_nonempty (reported args nw) = false →
  Py.truthy_opt (webhook_of w args) = false →
  main w args s
  = (Exited 0,
     {| rs_tick := rs_tick s1; rs_trace := rs_trace s1;
        rs_fs := fs_write (rs_fs s) (state_file_of w args) (JsonState st) |}).
Proof.
  intros E W J Q T H. rewrite (main_after_save w args s s1 st nw up E W).
  unfold main_report. rewrite J, Q, T, H. simpl.
  by destruct (is_nonempty (reported args nw)).
Qed.

Lemma quiet_cycle_is_silent_witness :
  ∃ s', main world20 args_quiet (fresh 0 home_fs) = (Exited 0, s')
        ∧ stdout_lines (rs_trace s') = [].
Proof.
  eexists. split.
  - eapply (quiet_cycle_is_silent world20 args_quiet (fresh 0 home_fs)).
    + vm_compute. reflexivity.
    + vm_compute. reflexivity.
    + reflexivity.
    + reflexivity.
    + reflexivity.
    + reflexivity.
  - vm_compute. reflexivity.
Defined.

(** X19. A successful cycle that reports no new ticket and no high or
    urgent update notifies nobody: besides saving the state it prints, at
    most, the three summary lines, and ends with status 0. *)
Theorem cycle_without_news_notifies_nobody
    (w : World) (args : Args) (s s1 : RunState)
    (st : WatcherState) (nw up : list Ticket) :
  check_tickets w (a_profile args)
    (loaded_state (rs_fs s) (state_file_of w args)) (a_hours args) s
    = (Ok (st, nw, up), s1) →
  writable (rs_fs s) (state_file_of w args) = true →
  a_json args = false →
  reported args nw = [] →
  filter_important (reported args up) = [] →
  main w args s
  = (Exited 0,
     {| rs_tick := if a_quiet args then rs_tick s1 else S (rs_tick s1);
        rs_trace :=
          rs_trace s1
          ++ (if a_quiet args then []
              else [ Stdout ("Checked at "
                             ++ w_now_strftime w "%Y-%m-%d %H:%M" (rs_tick s1));
                     Stdout "New tickets: 0";
                     Stdout ("Updated tickets: "
                             ++ Py.str_of_nat (length (reported args up))) ]);
        rs_fs := fs_write (rs_fs s) (state_file_of w args) (JsonState st) |}).
Proof.
  intros E W J Hn Hu. rewrite (main_after_save w args s s1 st nw up E W).
  unfold main_report. rewrite J, Hn, Hu. rewrite andb_false_r.
  destruct (a_quiet args); cbn [negb];
    destruct (Py.truthy_opt (webhook_of w args));
    destruct (reported args up); cbn [is_nonempty];
    unfold bind, ask, print, emit, ret, raise; cbn [rs_tick rs_trace rs_fs];
    rewrite ?app_nil_r, <- ?app_assoc; reflexivity.
Qed.

Lemma cycle_without_news_notifies_nobody_witness :
  ∃ s', main world_idle args_plain (fresh 0 home_fs) = (Exited 0, s')
        ∧ count_ev is_webhook (rs_trace s') = 0
        ∧ count_ev is_claude (rs_trace s') = 0.
Proof.
  eexists. split.
  - eapply (cycle_without_news_notifies_nobody world_idle args_plain
              (fresh 0 home_fs)).
    + vm_compute. reflexivity.
    + vm_compute. reflexivity.
    + reflexivity.
    + vm_compute. reflexivity.
    + vm_compute. reflexivity.
  - vm_compute. split; reflexivity.
Defined.

(** ** State store across cycles *)

(** X21. A state file that is missing, or holds text that is not JSON,
    means no history: loading gives the empty state, so that (with
    pairwise distinct identifiers) the detection reports every identified
    record of the response as new and none as updated. *)
Theorem lost_state_reports_everything_as_new
    (now_iso : nat -> string) (ts : list Ticket) (s : RunState) (path : string)
    (tick : nat) :
  (fs_files (rs_fs s) !! path = None
   ∨ ∃ raw, fs_files (rs_fs s) !! path = Some (NotJson raw)) →
  distinct_ids ts →
  ∃ st, load_state path s = (Ok (StateObject st), s)
        ∧ (detect now_iso ts st tick).1.1.2 = List.filter has_id ts
        ∧ (detect now_iso ts st tick).1.2 = [].
Proof.
  intros Hfile Hd. exists empty_state. split.
  { unfold load_state. by destruct Hfile as [->|[raw ->]]. }
  rewrite detect_unfold. cbv zeta. cbn [fst snd].
  destruct (check_loop_classifies now_iso ts
              {| sc_seen := seen_of empty_state; sc_new := []; sc_updated := [];
                 sc_tick := tick |} Hd) as [-> ->].
  cbn [sc_seen sc_new sc_updated app]. split.
  - apply filter_ext. intros t. unfold is_new.
    change (seen_of empty_state) with (∅ : gmap string SeenRecord).
    rewrite lookup_empty. rewrite bool_decide_eq_true_2 by done.
    apply andb_true_r.
  - clear. induction ts as [|t ts IH]; [done|]. simpl.
    unfold is_updated at 1.
    change (seen_of empty_state) with (∅ : gmap string SeenRecord).
    rewrite lookup_empty, andb_false_r. exact IH.
Qed.

Lemma lost_state_reports_everything_as_new_witness :
  ∃ st, load_state "/home/ops/.vision-watcher-state.json" (fresh 0 damaged_fs)
        = (Ok (StateObject st), fresh 0 damaged_fs)
        ∧ (detect sample_clock (firstn 3 tickets20) st 0).1.1.2
          = List.filter has_id (firstn 3 tickets20)
        ∧ (detect sample_clock (firstn 3 tickets20) st 0).1.2 = [].
Proof.
  apply (lost_state_reports_everything_as_new sample_clock (firstn 3 tickets20)
           (fresh 0 damaged_fs) "/home/ops/.vision-watcher-state.json" 0).
  - right. exists "{seen_". vm_compute. reflexivity.
  - unfold distinct_ids.
    apply (bool_decide_unpack
             (NoDup (map ticket_key (List.filter has_id (firstn 3 tickets20))))).
    vm_compute. exact I.
Defined.




